(** * slack-digest: issue detection and issue/project tracking

    A shallow embedding of [user_settings.py] (the [UserSettings] store, the
    keyword classifier, the priority extractor, the title generator) and of
    [app.detect_and_track_issues], followed by the properties proved about
    them.

    Conventions of the embedding.
    - A Python [str] is a [string]: a sequence of characters whose code
      points lie in 0..255.  [str.lower], [str.isspace], [str.split],
      [str.strip] and UTF-8 encoding are written out for that range.
    - A Python [dict] read with [.get(key, default)] is a record of
      [option] fields; an insertion-ordered [dict] whose order is observable
      (the issues of a user) is an association list with unique keys; the
      other mappings are [gmap]s.
    - [datetime.now().isoformat()] reads a clock: the n-th reading of the
      process is [clock n], and the world counts the readings.
    - [_save_settings] overwrites the settings file unless the write fails;
      console output is not modelled. *)

From Stdlib Require Import ZArith List Ascii String Bool Lia Permutation Sorted.
From stdpp Require Import base option strings gmap.

Import ListNotations.

(** ** Python strings *)

Module PyStr.

(** [c.isspace()] for a code point below 256. *)
Definition is_space (c : ascii) : bool :=
  let n := nat_of_ascii c in
  ((9 <=? n)%nat && (n <=? 13)%nat) || ((28 <=? n)%nat && (n <=? 32)%nat)
  || (n =? 133)%nat || (n =? 160)%nat.

(** [c.lower()] for a code point below 256. *)
Definition lower_char (c : ascii) : ascii :=
  let n := nat_of_ascii c in
  if ((65 <=? n)%nat && (n <=? 90)%nat)
     || ((192 <=? n)%nat && (n <=? 222)%nat && negb (n =? 215)%nat)
  then ascii_of_nat (n + 32) else c.

(** [s.lower()] *)
Fixpoint lower (s : string) : string :=
  match s with
  | EmptyString => EmptyString
  | String c r => String (lower_char c) (lower r)
  end.

(** [p in s]: [p] occurs in [s] as a contiguous substring. *)
Fixpoint contains (p s : string) : bool :=
  String.prefix p s
  || match s with
     | EmptyString => false
     | String _ r => contains p r
     end.

(** [any(w in s for w in ws)] *)
Definition any_in (ws : list string) (s : string) : bool :=
  existsb (fun w => contains w s) ws.

(** [s[:n]] for [n >= 0]. *)
Fixpoint take (n : nat) (s : string) : string :=
  match n, s with
  | O, _ => EmptyString
  | S _, EmptyString => EmptyString
  | S k, String c r => String c (take k r)
  end.

(** [s[:n]] for any integer [n]: a negative bound counts from the end. *)
Definition slice_to (s : string) (n : Z) : string :=
  if (0 <=? n)%Z then take (Z.to_nat n) s
  else take (Z.to_nat (Z.max 0 (Z.of_nat (String.length s) + n))) s.

(** [s.lstrip()] *)
Fixpoint lstrip (s : string) : string :=
  match s with
  | EmptyString => EmptyString
  | String c r => if is_space c then lstrip r else s
  end.

(** [s.rstrip()] *)
Fixpoint rstrip (s : string) : string :=
  match s with
  | EmptyString => EmptyString
  | String c r =>
      match rstrip r with
      | EmptyString => if is_space c then EmptyString else String c EmptyString
      | r' => String c r'
      end
  end.

(** [s.strip()] *)
Definition strip (s : string) : string := rstrip (lstrip s).

(** [s.split()]: the maximal runs of non-whitespace characters.  [cur] is
    the run being read, in reverse. *)
Fixpoint split_aux (cur : list ascii) (s : string) : list string :=
  let flush (rest : list string) :=
    match cur with
    | [] => rest
    | _ => string_of_list_ascii (rev cur) :: rest
    end in
  match s with
  | EmptyString => flush []
  | String c r =>
      if is_space c then flush (split_aux [] r) else split_aux (c :: cur) r
  end.

Definition split (s : string) : list string := split_aux [] s.

(** [sep.join(ws)] *)
Definition join (sep : string) (ws : list string) : string :=
  String.concat sep ws.

(** [re.sub(pattern, '', s)] for a pattern whose matches are never empty:
    [m r] is the length of the match that starts at the head of [r], if the
    pattern matches there.  [skip] counts the characters of the current
    match still to be dropped. *)
Fixpoint re_delete_aux (m : string -> option nat) (skip : nat) (s : string)
  : string :=
  match s with
  | EmptyString => EmptyString
  | String c r =>
      match skip with
      | S k => re_delete_aux m k r
      | O =>
          match m s with
          | Some (S k) => re_delete_aux m k r
          | _ => String c (re_delete_aux m O r)
          end
      end
  end.

Definition re_delete (m : string -> option nat) (s : string) : string :=
  re_delete_aux m O s.

(** The length of the longest prefix of [s] whose characters satisfy [p]. *)
Fixpoint span_length (p : ascii -> bool) (s : string) : nat :=
  match s with
  | EmptyString => O
  | String c r => if p c then S (span_length p r) else O
  end.

(** [s.encode()]: UTF-8, one byte below 128 and two bytes from 128 to 255. *)
Definition utf8_char (c : ascii) : list Z :=
  let n := Z.of_nat (nat_of_ascii c) in
  if (n <? 128)%Z then [n] else [192 + n / 64; 128 + n mod 64]%Z.

Fixpoint encode (s : string) : list Z :=
  match s with
  | EmptyString => []
  | String c r => utf8_char c ++ encode r
  end.

End PyStr.

(** ** hashlib.md5

    The digest function that [_generate_issue_id] calls, after RFC 1321,
    on a list of bytes. *)

Module MD5.

Local Open Scope Z_scope.

Definition w32 (x : Z) : Z := x mod 2 ^ 32.

Definition not32 (x : Z) : Z := Z.lxor x (2 ^ 32 - 1).

Definition rotl (x c : Z) : Z :=
  w32 (Z.lor (Z.shiftl x c) (Z.shiftr x (32 - c))).

Definition K : list Z :=
  [ 3614090360; 3905402710; 606105819; 3250441966;
    4118548399; 1200080426; 2821735955; 4249261313;
    1770035416; 2336552879; 4294925233; 2304563134;
    1804603682; 4254626195; 2792965006; 1236535329;
    4129170786; 3225465664; 643717713; 3921069994;
    3593408605; 38016083; 3634488961; 3889429448;
    568446438; 3275163606; 4107603335; 1163531501;
    2850285829; 4243563512; 1735328473; 2368359562;
    4294588738; 2272392833; 1839030562; 4259657740;
    2763975236; 1272893353; 4139469664; 3200236656;
    681279174; 3936430074; 3572445317; 76029189;
    3654602809; 3873151461; 530742520; 3299628645;
    4096336452; 1126891415; 2878612391; 4237533241;
    1700485571; 2399980690; 4293915773; 2240044497;
    1873313359; 4264355552; 2734768916; 1309151649;
    4149444226; 3174756917; 718787259; 3951481745 ].

Definition shifts : list Z :=
  [ 7; 12; 17; 22; 7; 12; 17; 22; 7; 12; 17; 22; 7; 12; 17; 22;
    5; 9; 14; 20; 5; 9; 14; 20; 5; 9; 14; 20; 5; 9; 14; 20;
    4; 11; 16; 23; 4; 11; 16; 23; 4; 11; 16; 23; 4; 11; 16; 23;
    6; 10; 15; 21; 6; 10; 15; 21; 6; 10; 15; 21; 6; 10; 15; 21 ].

Record state := State { sa : Z; sb : Z; sc : Z; sd : Z }.

Definition init : state :=
  State 1732584193 4023233417 2562383102 271733878.

(** The round function and the index of the message word of step [i]. *)
Definition mix (i : nat) (b c d : Z) : Z * nat :=
  if (i <? 16)%nat then
    (Z.lor (Z.land b c) (Z.land (not32 b) d), i)
  else if (i <? 32)%nat then
    (Z.lor (Z.land d b) (Z.land (not32 d) c), (5 * i + 1) mod 16)%nat
  else if (i <? 48)%nat then
    (Z.lxor (Z.lxor b c) d, (3 * i + 5) mod 16)%nat
  else
    (Z.lxor c (Z.lor b (not32 d)), (7 * i) mod 16)%nat.

Definition step (m : list Z) (s : state) (i : nat) : state :=
  let '(f, g) := mix i (sb s) (sc s) (sd s) in
  let f' := w32 (f + sa s + nth i K 0 + nth g m 0) in
  State (sd s) (w32 (sb s + rotl f' (nth i shifts 0))) (sb s) (sc s).

(** Four bytes, least significant first, as one 32-bit word. *)
Definition word_of_bytes (bs : list Z) : Z :=
  nth 0 bs 0 + 256 * nth 1 bs 0 + 65536 * nth 2 bs 0 + 16777216 * nth 3 bs 0.

Definition words_of_block (block : list Z) : list Z :=
  map (fun j => word_of_bytes (firstn 4 (skipn (4 * j) block))) (seq 0 16).

Definition process_block (s : state) (block : list Z) : state :=
  let r := fold_left (step (words_of_block block)) (seq 0 64) s in
  State (w32 (sa s + sa r)) (w32 (sb s + sb r))
        (w32 (sc s + sc r)) (w32 (sd s + sd r)).

Fixpoint process (nblocks : nat) (s : state) (bytes : list Z) : state :=
  match nblocks with
  | O => s
  | S k => process k (process_block s (firstn 64 bytes)) (skipn 64 bytes)
  end.

(** [n] as [k] bytes, least significant first. *)
Fixpoint le_bytes (k : nat) (n : Z) : list Z :=
  match k with
  | O => []
  | S k' => n mod 256 :: le_bytes k' (n / 256)
  end.

Definition pad (msg : list Z) : list Z :=
  let len := Z.of_nat (length msg) in
  msg ++ [128] ++ repeat 0 (Z.to_nat ((55 - len) mod 64))
      ++ le_bytes 8 ((8 * len) mod 2 ^ 64).

Definition digest (msg : list Z) : list Z :=
  let p := pad msg in
  let s := process (length p / 64) init p in
  le_bytes 4 (sa s) ++ le_bytes 4 (sb s) ++ le_bytes 4 (sc s)
    ++ le_bytes 4 (sd s).

Definition hex_digit (n : Z) : ascii :=
  nth (Z.to_nat n) (list_ascii_of_string "0123456789abcdef") "0"%char.

Definition hex_byte (b : Z) : string :=
  String (hex_digit (b / 16)) (String (hex_digit (b mod 16)) EmptyString).

Fixpoint hex (bs : list Z) : string :=
  match bs with
  | [] => EmptyString
  | b :: r => String.append (hex_byte b) (hex r)
  end.

(** [hashlib.md5(bytes).hexdigest()] *)
Definition hexdigest (msg : list Z) : string := hex (digest msg).

End MD5.

(** ** The text functions of user_settings.py *)

Local Open Scope string_scope.

Definition issue_patterns : list (string * list string) :=
  [ ("bug", ["bug"; "bugs"; "buggy"; "defect"; "error"; "broken"]);
    ("failure", ["failure"; "failed"; "failing"; "fails"; "crash"; "crashed";
                 "crashing"]);
    ("problem", ["problem"; "problems"; "issue"; "issues"; "trouble"; "wrong"]);
    ("malfunction", ["malfunction"; "not working"; "doesn't work";
                     "stopped working"]);
    ("performance", ["slow"; "performance"; "lag"; "timeout"; "bottleneck"]);
    ("critical", ["critical"; "urgent"; "emergency"; "blocker"; "show-stopper";
                  "showstopper"]);
    ("regression", ["regression"; "broke"; "used to work"; "was working"]);
    ("hardware", ["hardware issue"; "pcb"; "component failure";
                  "short circuit"; "thermal"]);
    ("firmware", ["firmware bug"; "software issue"; "code problem";
                  "logic error"]) ].

Definition detect_issue_keywords (text : string) : list string :=
  let text_lower := PyStr.lower text in
  map fst
    (List.filter (fun entry => PyStr.any_in (snd entry) text_lower) issue_patterns).

Definition critical_words : list string :=
  ["critical"; "urgent"; "emergency"; "blocker"; "show-stopper"; "showstopper"].

Definition high_words : list string :=
  ["high"; "important"; "asap"; "priority"].

Definition low_words : list string :=
  ["low"; "minor"; "cosmetic"; "nice to have"].

Definition extract_issue_priority (text : string) : string :=
  let text_lower := PyStr.lower text in
  if PyStr.any_in critical_words text_lower then "critical"
  else if PyStr.any_in high_words text_lower then "high"
  else if PyStr.any_in low_words text_lower then "low"
  else "medium".

(** [s[n:]] for [n >= 0]. *)
Fixpoint drop (n : nat) (s : string) : string :=
  match n, s with
  | O, _ => s
  | S _, EmptyString => EmptyString
  | S k, String _ r => drop k r
  end.

(** The match of [<[@#!][^>]+>] at the head of [s]: an opening bracket, one
    of the three markers, the non-empty run of characters up to the next
    closing bracket, and that bracket. *)
Definition match_mention (s : string) : option nat :=
  match s with
  | String "<"%char (String m r) =>
      if (Ascii.eqb m "@" || Ascii.eqb m "#" || Ascii.eqb m "!")%char then
        let n := PyStr.span_length (fun c => negb (Ascii.eqb c ">")) r in
        if (0 <? n)%nat && (n <? String.length r)%nat then Some (n + 3)%nat
        else None
      else None
  | _ => None
  end.

(** The match of [http[s]?://\S+] at the head of [s]. *)
Definition match_url (s : string) : option nat :=
  let body (k : nat) :=
    let n := PyStr.span_length (fun c => negb (PyStr.is_space c)) (drop k s) in
    if (0 <? n)%nat then Some (k + n)%nat else None in
  if String.prefix "https://" s then body 8%nat
  else if String.prefix "http://" s then body 7%nat
  else None.

Definition skip_words : list string :=
  ["the"; "a"; "an"; "is"; "was"; "are"; "were"; "i"; "we"; "you"; "they";
   "it"; "this"; "that"].

Definition generate_issue_title (text : string) (max_length : Z) : string :=
  let cleaned := PyStr.re_delete match_mention text in
  let cleaned := PyStr.re_delete match_url cleaned in
  let words := PyStr.split cleaned in
  let filtered_words :=
    List.filter (fun word =>
              negb (existsb (String.eqb (PyStr.lower word)) skip_words)
              && (2 <? String.length word)%nat) words in
  let title := PyStr.join " " (firstn 12 filtered_words) in
  let title :=
    if (max_length <? Z.of_nat (String.length title))%Z
    then PyStr.slice_to title (max_length - 3) +:+ "..."
    else title in
  PyStr.strip title.

(** The default of the keyword argument [max_length]. *)
Definition default_max_length : Z := 80.

(** ** The records of the store *)

(** [d.get(key, default)] on an optional field. *)
Definition get {A : Type} (field : option A) (default : A) : A :=
  match field with
  | Some v => v
  | None => default
  end.

(** [x or y] on strings: the empty string and [None] are falsy. *)
Definition str_or (x : option string) (y : string) : string :=
  match x with
  | Some (String c r) => String c r
  | _ => y
  end.

(** An entry of [status_history]; the seed entry has no [previous_status]. *)
Module HistoryEntry.
Record t := Make {
  status : string;
  timestamp : string;
  user : string;
  previous_status : option string }.
End HistoryEntry.

Module RelatedMessage.
Record t := Make {
  text : string;
  user : string;
  channel : string;
  timestamp : string;
  message_ts : string;
  added_at : string }.
End RelatedMessage.

(** The [issue_data] dictionary that [create_issue] reads, and that
    [detect_and_track_issues] builds. *)
Module IssueData.
Record t := Make {
  title : option string;
  description : option string;
  original_text : option string;
  channel : option string;
  reporter : option string;
  timestamp : option string;
  message_ts : option string;
  status : option string;
  priority : option string;
  tags : option (list string);
  types : option (list string) }.
End IssueData.

(** The [message_data] dictionary that [add_related_message] reads. *)
Module MessageData.
Record t := Make {
  text : option string;
  user : option string;
  channel : option string;
  timestamp : option string;
  message_ts : option string }.
End MessageData.

(** A message as [detect_and_track_issues] reads it: its text, its author,
    its channel and [ts], the timestamp of the message. *)
Module Message.
Record t := Make {
  text : option string;
  user : option string;
  channel : option string;
  ts : option string }.
End Message.

Module Issue.
Record t := Make {
  id : string;
  title : string;
  description : string;
  original_text : string;
  channel : string;
  reporter : string;
  timestamp : string;
  message_ts : string;
  status : string;
  priority : string;
  tags : list string;
  related_messages : list RelatedMessage.t;
  status_history : list HistoryEntry.t;
  created_at : string;
  updated_at : string }.

(** [issue["status"] = s] *)
Definition set_status (s : string) (i : t) : t :=
  Make (id i) (title i) (description i) (original_text i) (channel i)
       (reporter i) (timestamp i) (message_ts i) s (priority i) (tags i)
       (related_messages i) (status_history i) (created_at i) (updated_at i).

(** [issue["updated_at"] = now] *)
Definition set_updated_at (now : string) (i : t) : t :=
  Make (id i) (title i) (description i) (original_text i) (channel i)
       (reporter i) (timestamp i) (message_ts i) (status i) (priority i)
       (tags i) (related_messages i) (status_history i) (created_at i) now.

(** [issue["status_history"].append(e)] *)
Definition append_history (e : HistoryEntry.t) (i : t) : t :=
  Make (id i) (title i) (description i) (original_text i) (channel i)
       (reporter i) (timestamp i) (message_ts i) (status i) (priority i)
       (tags i) (related_messages i) (status_history i ++ [e]) (created_at i)
       (updated_at i).

(** [issue["related_messages"].append(m)] *)
Definition append_related (m : RelatedMessage.t) (i : t) : t :=
  Make (id i) (title i) (description i) (original_text i) (channel i)
       (reporter i) (timestamp i) (message_ts i) (status i) (priority i)
       (tags i) (related_messages i ++ [m]) (status_history i) (created_at i)
       (updated_at i).
End Issue.

Module Project.
Record t := Make {
  channels : list string;
  keywords : list string;
  created_at : string;
  active : bool }.

Definition set_channels (cs : list string) (p : t) : t :=
  Make cs (keywords p) (created_at p) (active p).

Definition set_keywords (ks : list string) (p : t) : t :=
  Make (channels p) ks (created_at p) (active p).

Definition set_active (b : bool) (p : t) : t :=
  Make (channels p) (keywords p) (created_at p) b.
End Project.

(** An insertion-ordered dictionary with string keys. *)
Module Dict.
Section Dict.
Context {V : Type}.

Definition t := list (string * V).

(** [d.get(k)] *)
Fixpoint lookup (k : string) (d : list (string * V)) : option V :=
  match d with
  | [] => None
  | (k', v) :: r => if String.eqb k' k then Some v else lookup k r
  end.

(** [d[k] = v]: a present key keeps its place, a new key goes last. *)
Fixpoint set (k : string) (v : V) (d : list (string * V))
  : list (string * V) :=
  match d with
  | [] => [(k, v)]
  | (k', v') :: r =>
      if String.eqb k' k then (k, v) :: r else (k', v') :: set k v r
  end.

(** [d.values()] *)
Definition values (d : list (string * V)) : list V := map snd d.

End Dict.
End Dict.

(** The dictionary [settings[user_id]]; a key that is absent is [None]. *)
Module UserRecord.
Record t := Make {
  custom_prompt : option string;
  keywords : option (list string);
  default_hours : option Z;
  projects : option (gmap string Project.t);
  issues : option (list (string * Issue.t)) }.

Definition empty : t := Make None None None None None.

Definition set_custom_prompt (p : string) (u : t) : t :=
  Make (Some p) (keywords u) (default_hours u) (projects u) (issues u).

Definition set_keywords (ks : list string) (u : t) : t :=
  Make (custom_prompt u) (Some ks) (default_hours u) (projects u) (issues u).

Definition set_default_hours (h : Z) (u : t) : t :=
  Make (custom_prompt u) (keywords u) (Some h) (projects u) (issues u).

Definition set_projects (ps : gmap string Project.t) (u : t) : t :=
  Make (custom_prompt u) (keywords u) (default_hours u) (Some ps) (issues u).

Definition set_issues (d : list (string * Issue.t)) (u : t) : t :=
  Make (custom_prompt u) (keywords u) (default_hours u) (projects u) (Some d).
End UserRecord.

(** The result of [get_issue_statistics]. *)
Module Stats.
Record priorities := MakePriorities {
  low : nat;
  medium : nat;
  high : nat;
  critical : nat }.

Record t := Make {
  total : nat;
  open : nat;
  investigating : nat;
  resolved : nat;
  closed : nat;
  by_priority : priorities;
  recent_activity : nat }.
End Stats.

(** An exception that escapes a method. *)
Inductive exn := TypeError.

Inductive result (A : Type) :=
  | Ok (a : A)
  | Raise (e : exn).
Arguments Ok {A} a.
Arguments Raise {A} e.

(** ** The process state *)

Abbreviation Settings := (gmap string UserRecord.t).

(** [settings] is [self.settings]; [file] is what the settings file holds
    ([None]: absent or unreadable); [ticks] counts the readings of the clock
    and [writes] the attempts to write the file. *)
Record World := MakeWorld {
  settings : Settings;
  file : option Settings;
  ticks : nat;
  writes : nat }.

Definition M (A : Type) : Type := World -> A * World.

#[global] Instance M_ret : MRet M := fun A a w => (a, w).

#[global] Instance M_bind : MBind M :=
  fun A B f m w => let (a, w') := m w in f a w'.

(** [self.settings] *)
Definition read : M Settings := fun w => (settings w, w).

(** An update of [self.settings] in place. *)
Definition modify (f : Settings -> Settings) : M unit :=
  fun w => (tt, MakeWorld (f (settings w)) (file w) (ticks w) (writes w)).

(** ** sorted(..., reverse=True)

    [list.sort(key=key, reverse=True)]: descending by key, elements with equal
    keys in their original order. *)

Section Sort.
Context {A : Type} (key : A -> string).

Fixpoint insert_reverse (x : A) (l : list A) : list A :=
  match l with
  | [] => [x]
  | y :: r =>
      if String.ltb (key x) (key y) then y :: insert_reverse x r else x :: l
  end.

Definition sort_reverse (l : list A) : list A :=
  fold_right insert_reverse [] l.

End Sort.

(** ** class UserSettings *)

Module UserSettings.

(** [UserSettings(settings_file)]: [_load_settings] on the file. *)
Definition __init__ (file : option Settings) : World :=
  MakeWorld (get file ∅) file 0 0.

Definition get_user_settings (s : Settings) (user_id : string)
  : UserRecord.t :=
  get (s !! user_id) UserRecord.empty.

Definition get_user_prompt (s : Settings) (user_id : string)
  : option string :=
  UserRecord.custom_prompt (get_user_settings s user_id).

Definition get_user_keywords (s : Settings) (user_id : string)
  : option (list string) :=
  UserRecord.keywords (get_user_settings s user_id).

Definition get_user_hours (s : Settings) (user_id : string) : Z :=
  get (UserRecord.default_hours (get_user_settings s user_id)) 24%Z.

Definition get_user_projects (s : Settings) (user_id : string)
  : gmap string Project.t :=
  get (UserRecord.projects (get_user_settings s user_id)) ∅.

Definition get_project (s : Settings) (user_id project_name : string)
  : option Project.t :=
  get_user_projects s user_id !! project_name.

(** [if user_id not in self.settings: self.settings[user_id] = {}] *)
Definition ensure_user (user_id : string) (s : Settings) : Settings :=
  match s !! user_id with
  | Some _ => s
  | None => <[user_id := UserRecord.empty]> s
  end.

(** [if "projects" not in self.settings[user_id]: ... = {}] *)
Definition ensure_projects (user_id : string) (s : Settings) : Settings :=
  alter (fun u => match UserRecord.projects u with
                  | Some _ => u
                  | None => UserRecord.set_projects ∅ u
                  end) user_id s.

(** [if "issues" not in self.settings[user_id]: ... = {}] *)
Definition ensure_issues (user_id : string) (s : Settings) : Settings :=
  alter (fun u => match UserRecord.issues u with
                  | Some _ => u
                  | None => UserRecord.set_issues [] u
                  end) user_id s.

(** [self.settings[user_id]["projects"][project_name]], under the guards
    [user_id in self.settings and "projects" in self.settings[user_id]] and
    [project_name in self.settings[user_id]["projects"]]. *)
Definition stored_project (s : Settings) (user_id project_name : string)
  : option Project.t :=
  match s !! user_id with
  | Some u =>
      match UserRecord.projects u with
      | Some ps => ps !! project_name
      | None => None
      end
  | None => None
  end.

(** [self.settings[user_id]["issues"][issue_id]], under the same guards. *)
Definition stored_issue (s : Settings) (user_id issue_id : string)
  : option Issue.t :=
  match s !! user_id with
  | Some u =>
      match UserRecord.issues u with
      | Some d => Dict.lookup issue_id d
      | None => None
      end
  | None => None
  end.

(** [self.settings[user_id]["projects"][project_name] = p] *)
Definition put_project (user_id project_name : string) (p : Project.t)
  (s : Settings) : Settings :=
  alter (fun u => UserRecord.set_projects
                    (<[project_name := p]> (get (UserRecord.projects u) ∅)) u)
        user_id s.

(** [self.settings[user_id]["issues"][issue_id] = i] *)
Definition put_issue (user_id issue_id : string) (i : Issue.t)
  (s : Settings) : Settings :=
  alter (fun u => UserRecord.set_issues
                    (Dict.set issue_id i (get (UserRecord.issues u) [])) u)
        user_id s.

Definition _generate_issue_id (message_text channel timestamp : string)
  : string :=
  let content := PyStr.take 100 message_text +:+ channel +:+ timestamp in
  PyStr.take 8 (MD5.hexdigest (PyStr.encode content)).

Definition get_user_issues (s : Settings) (user_id : string)
  (status : option string) : list (string * Issue.t) :=
  let issues := get (UserRecord.issues (get_user_settings s user_id)) [] in
  match status with
  | Some (String c r) =>
      List.filter (fun kv => String.eqb (Issue.status (snd kv)) (String c r)) issues
  | _ => issues
  end.

Definition get_issue (s : Settings) (user_id issue_id : string)
  : option Issue.t :=
  Dict.lookup issue_id (get_user_issues s user_id None).

(** The test of [search_issues] on one issue. *)
Definition search_match (query : string) (issue : Issue.t) : bool :=
  let query_lower := PyStr.lower query in
  let searchable_text :=
    PyStr.lower (Issue.title issue +:+ " " +:+ Issue.description issue
                 +:+ " " +:+ Issue.original_text issue) in
  PyStr.contains query_lower searchable_text.

Definition search_issues (s : Settings) (user_id query : string)
  : list Issue.t :=
  let issues := get_user_issues s user_id None in
  let results := List.filter (search_match query) (Dict.values issues) in
  sort_reverse Issue.updated_at results.

Section Methods.

(** [clock n] is the ISO text of the n-th reading of [datetime.now()];
    [writable n] tells whether the n-th write of the settings file succeeds;
    [updated_since n s] tells whether [s] is a non-empty ISO date and time
    later than 24 hours before the n-th reading of the clock. *)
Variable clock : nat -> string.
Variable writable : nat -> bool.
Variable updated_since : nat -> string -> bool.

(** [datetime.now()]: the index of the reading. *)
Definition now_reading : M nat :=
  fun w => (ticks w, MakeWorld (settings w) (file w) (S (ticks w)) (writes w)).

(** [datetime.now().isoformat()] *)
Definition now : M string := n ← now_reading; mret (clock n).

Definition _save_settings : M unit :=
  fun w =>
    (tt, MakeWorld (settings w)
                   (if writable (writes w) then Some (settings w) else file w)
                   (ticks w) (S (writes w))).

Definition set_user_prompt (user_id custom_prompt : string) : M unit :=
  modify (ensure_user user_id);;
  modify (alter (UserRecord.set_custom_prompt custom_prompt) user_id);;
  _save_settings.

Definition set_user_keywords (user_id : string) (keywords : list string)
  : M unit :=
  modify (ensure_user user_id);;
  modify (alter (UserRecord.set_keywords keywords) user_id);;
  _save_settings.

Definition set_user_hours (user_id : string) (hours : Z) : M unit :=
  modify (ensure_user user_id);;
  modify (alter (UserRecord.set_default_hours hours) user_id);;
  _save_settings.

Definition clear_user_settings (user_id : string) : M unit :=
  s ← read;
  match s !! user_id with
  | Some _ => modify (delete user_id);; _save_settings
  | None => mret tt
  end.

Definition create_project (user_id project_name : string)
  (channels : list string) (keywords : option (list string)) : M unit :=
  modify (ensure_user user_id);;
  modify (ensure_projects user_id);;
  created ← now;
  modify (put_project user_id project_name
            (Project.Make channels (get keywords []) created true));;
  _save_settings.

Definition update_project_channels (user_id project_name : string)
  (channels : list string) : M unit :=
  s ← read;
  match stored_project s user_id project_name with
  | Some p =>
      modify (put_project user_id project_name
                (Project.set_channels channels p));;
      _save_settings
  | None => mret tt
  end.

Definition update_project_keywords (user_id project_name : string)
  (keywords : list string) : M unit :=
  s ← read;
  match stored_project s user_id project_name with
  | Some p =>
      modify (put_project user_id project_name
                (Project.set_keywords keywords p));;
      _save_settings
  | None => mret tt
  end.

Definition delete_project (user_id project_name : string) : M unit :=
  s ← read;
  match stored_project s user_id project_name with
  | Some _ =>
      modify (alter (fun u => UserRecord.set_projects
                       (delete project_name (get (UserRecord.projects u) ∅)) u)
                    user_id);;
      _save_settings
  | None => mret tt
  end.

(** Returns [Some b] for the boolean [b], and [None] for Python's [None]. *)
Definition toggle_project_status (user_id project_name : string)
  : M (option bool) :=
  s ← read;
  match stored_project s user_id project_name with
  | Some p =>
      let current_status := Project.active p in
      modify (put_project user_id project_name
                (Project.set_active (negb current_status) p));;
      _save_settings;;
      mret (Some (negb current_status))
  | None => mret None
  end.

Definition create_issue (user_id : string) (issue_data : IssueData.t)
  : M string :=
  modify (ensure_user user_id);;
  modify (ensure_issues user_id);;
  let issue_id :=
    _generate_issue_id (get (IssueData.original_text issue_data) "")
                       (get (IssueData.channel issue_data) "")
                       (get (IssueData.timestamp issue_data) "") in
  seeded ← now;
  created ← now;
  updated ← now;
  modify (put_issue user_id issue_id
    {| Issue.id := issue_id;
       Issue.title := get (IssueData.title issue_data) "";
       Issue.description := get (IssueData.description issue_data) "";
       Issue.original_text := get (IssueData.original_text issue_data) "";
       Issue.channel := get (IssueData.channel issue_data) "";
       Issue.reporter := get (IssueData.reporter issue_data) "";
       Issue.timestamp := get (IssueData.timestamp issue_data) "";
       Issue.message_ts := get (IssueData.message_ts issue_data) "";
       Issue.status := get (IssueData.status issue_data) "open";
       Issue.priority := get (IssueData.priority issue_data) "medium";
       Issue.tags := get (IssueData.tags issue_data) [];
       Issue.related_messages := [];
       Issue.status_history :=
         [ {| HistoryEntry.status := "open";
              HistoryEntry.timestamp := seeded;
              HistoryEntry.user := user_id;
              HistoryEntry.previous_status := None |} ];
       Issue.created_at := created;
       Issue.updated_at := updated |});;
  _save_settings;;
  mret issue_id.

Definition update_issue_status (user_id issue_id new_status : string)
  (updated_by : option string) : M bool :=
  s ← read;
  match stored_issue s user_id issue_id with
  | Some issue =>
      let old_status := Issue.status issue in
      updated ← now;
      stamped ← now;
      modify (put_issue user_id issue_id
        (Issue.append_history
           {| HistoryEntry.status := new_status;
              HistoryEntry.timestamp := stamped;
              HistoryEntry.user := str_or updated_by user_id;
              HistoryEntry.previous_status := Some old_status |}
           (Issue.set_updated_at updated (Issue.set_status new_status issue))));;
      _save_settings;;
      mret true
  | None => mret false
  end.

Definition add_related_message (user_id issue_id : string)
  (message_data : MessageData.t) : M bool :=
  s ← read;
  match stored_issue s user_id issue_id with
  | Some issue =>
      added ← now;
      let related_message :=
        {| RelatedMessage.text := get (MessageData.text message_data) "";
           RelatedMessage.user := get (MessageData.user message_data) "";
           RelatedMessage.channel := get (MessageData.channel message_data) "";
           RelatedMessage.timestamp :=
             get (MessageData.timestamp message_data) "";
           RelatedMessage.message_ts :=
             get (MessageData.message_ts message_data) "";
           RelatedMessage.added_at := added |} in
      updated ← now;
      modify (put_issue user_id issue_id
        (Issue.set_updated_at updated
           (Issue.append_related related_message issue)));;
      _save_settings;;
      mret true
  | None => mret false
  end.

(** [if status in stats: stats[status] += 1].  The dictionary [stats] has
    the keys of the four statuses and also [total], [recent_activity] and
    [by_priority]; the value under [by_priority] is a dictionary, to which
    no number can be added. *)
Definition count_status (status : string) (st : Stats.t)
  : result Stats.t :=
  let '(Stats.Make t o i r c p a) := st in
  if String.eqb status "total" then Ok (Stats.Make (S t) o i r c p a)
  else if String.eqb status "open" then Ok (Stats.Make t (S o) i r c p a)
  else if String.eqb status "investigating" then
    Ok (Stats.Make t o (S i) r c p a)
  else if String.eqb status "resolved" then Ok (Stats.Make t o i (S r) c p a)
  else if String.eqb status "closed" then Ok (Stats.Make t o i r (S c) p a)
  else if String.eqb status "by_priority" then Raise TypeError
  else if String.eqb status "recent_activity" then
    Ok (Stats.Make t o i r c p (S a))
  else Ok st.

(** [if priority in stats["by_priority"]: stats["by_priority"][priority] += 1] *)
Definition count_priority (priority : string) (p : Stats.priorities)
  : Stats.priorities :=
  let '(Stats.MakePriorities l m h c) := p in
  if String.eqb priority "low" then Stats.MakePriorities (S l) m h c
  else if String.eqb priority "medium" then Stats.MakePriorities l (S m) h c
  else if String.eqb priority "high" then Stats.MakePriorities l m (S h) c
  else if String.eqb priority "critical" then Stats.MakePriorities l m h (S c)
  else p.

(** The body of the loop of [get_issue_statistics]; [reading] is the clock
    reading taken before the loop. *)
Definition count_issue (reading : nat) (acc : result Stats.t)
  (issue : Issue.t) : result Stats.t :=
  match acc with
  | Raise e => Raise e
  | Ok st =>
      match count_status (Issue.status issue) st with
      | Raise e => Raise e
      | Ok (Stats.Make t o i r c p a) =>
          let p := count_priority (Issue.priority issue) p in
          if updated_since reading (Issue.updated_at issue)
          then Ok (Stats.Make t o i r c p (S a))
          else Ok (Stats.Make t o i r c p a)
      end
  end.

Definition get_issue_statistics (user_id : string) : M (result Stats.t) :=
  s ← read;
  let issues := get_user_issues s user_id None in
  let stats :=
    Stats.Make (length issues) 0 0 0 0 (Stats.MakePriorities 0 0 0 0) 0 in
  reading ← now_reading;
  mret (fold_left (count_issue reading) (Dict.values issues) (Ok stats)).

End Methods.
End UserSettings.

(** ** app.detect_and_track_issues *)

Module App.

(** The dictionary built for a message whose text carries issue keywords. *)
Definition issue_data_of (message : Message.t) : IssueData.t :=
  let message_text := get (Message.text message) "" in
  let issue_types := detect_issue_keywords message_text in
  let priority := extract_issue_priority message_text in
  let title := generate_issue_title message_text default_max_length in
  {| IssueData.title := Some title;
     IssueData.description := None;
     IssueData.original_text := Some message_text;
     IssueData.channel := Some (get (Message.channel message) "");
     IssueData.reporter := Some (get (Message.user message) "");
     IssueData.timestamp := Some (get (Message.ts message) "");
     IssueData.message_ts := Some (get (Message.ts message) "");
     IssueData.status := None;
     IssueData.priority := Some priority;
     IssueData.tags := Some issue_types;
     IssueData.types := Some issue_types |}.

(** The loop over the messages; [detected_issues] is the list built so far. *)
Fixpoint detect_loop (messages : list Message.t)
  (detected_issues : list IssueData.t) : list IssueData.t :=
  match messages with
  | [] => detected_issues
  | message :: rest =>
      match detect_issue_keywords (get (Message.text message) "") with
      | [] => detect_loop rest detected_issues
      | _ :: _ => detect_loop rest (detected_issues ++ [issue_data_of message])
      end
  end.

(** The function runs in the process, with [user_settings] in scope, and
    does not use it. *)
Definition detect_and_track_issues (messages : list Message.t)
  (user_id : string) : M (list IssueData.t) :=
  mret (detect_loop messages []).

End App.

(** ** Vocabulary of the properties *)

(** [p] is a contiguous substring of [s]. *)
Definition occurs (p s : string) : Prop :=
  exists a b : string, s = a +:+ p +:+ b.

(** Some word of [ws] is a substring of [s]. *)
Definition occurs_any (ws : list string) (s : string) : Prop :=
  exists w : string, In w ws /\ occurs w s.

(** A lower-case hexadecimal digit. *)
Definition is_hex (c : ascii) : Prop :=
  In c (list_ascii_of_string "0123456789abcdef").

(** The test [if issue_types:] on a message. *)
Definition has_issue_keywords (message : Message.t) : bool :=
  match detect_issue_keywords (get (Message.text message) "") with
  | [] => false
  | _ :: _ => true
  end.

Definition statuses : list string :=
  ["open"; "investigating"; "resolved"; "closed"].

Definition priorities : list string := ["critical"; "high"; "medium"; "low"].

(** [open + investigating + resolved + closed] *)
Definition status_sum (st : Stats.t) : nat :=
  (Stats.open st + Stats.investigating st + Stats.resolved st
   + Stats.closed st)%nat.

(** [sum(by_priority.values())] *)
Definition priority_sum (st : Stats.t) : nat :=
  let p := Stats.by_priority st in
  (Stats.low p + Stats.medium p + Stats.high p + Stats.critical p)%nat.

(** An issue whose status and priority are among the four of each kind. *)
Definition classified (issue : Issue.t) : Prop :=
  In (Issue.status issue) statuses /\ In (Issue.priority issue) priorities.

(** The text that [search_issues] searches: the three fields, separated by
    single spaces, in lower case. *)
Definition searchable_text (issue : Issue.t) : string :=
  PyStr.lower (Issue.title issue +:+ " " +:+ Issue.description issue
               +:+ " " +:+ Issue.original_text issue).

(** [x] does not come after [y] in descending order of the keys. *)
Definition key_ge {A : Type} (key : A -> string) (x y : A) : Prop :=
  String.leb (key y) (key x) = true.

(** ** Calls of the methods, for runs of the process *)

Inductive Call :=
  | SetUserPrompt (user_id custom_prompt : string)
  | SetUserKeywords (user_id : string) (keywords : list string)
  | SetUserHours (user_id : string) (hours : Z)
  | ClearUserSettings (user_id : string)
  | CreateProject (user_id project_name : string) (channels : list string)
      (keywords : option (list string))
  | UpdateProjectChannels (user_id project_name : string)
      (channels : list string)
  | UpdateProjectKeywords (user_id project_name : string)
      (keywords : list string)
  | DeleteProject (user_id project_name : string)
  | ToggleProjectStatus (user_id project_name : string)
  | CreateIssue (user_id : string) (issue_data : IssueData.t)
  | UpdateIssueStatus (user_id issue_id new_status : string)
      (updated_by : option string)
  | AddRelatedMessage (user_id issue_id : string) (message_data : MessageData.t)
  | GetIssueStatistics (user_id : string).

(** What a call returns. *)
Inductive Value :=
  | VNone
  | VBool (b : bool)
  | VStr (s : string)
  | VStats (r : result Stats.t).

Section Runs.
Variable clock : nat -> string.
Variable writable : nat -> bool.
Variable updated_since : nat -> string -> bool.

Definition run_call (c : Call) : M Value :=
  match c with
  | SetUserPrompt u p =>
      UserSettings.set_user_prompt writable u p;; mret VNone
  | SetUserKeywords u ks =>
      UserSettings.set_user_keywords writable u ks;; mret VNone
  | SetUserHours u h =>
      UserSettings.set_user_hours writable u h;; mret VNone
  | ClearUserSettings u =>
      UserSettings.clear_user_settings writable u;; mret VNone
  | CreateProject u n cs ks =>
      UserSettings.create_project clock writable u n cs ks;; mret VNone
  | UpdateProjectChannels u n cs =>
      UserSettings.update_project_channels writable u n cs;; mret VNone
  | UpdateProjectKeywords u n ks =>
      UserSettings.update_project_keywords writable u n ks;; mret VNone
  | DeleteProject u n =>
      UserSettings.delete_project writable u n;; mret VNone
  | ToggleProjectStatus u n =>
      r ← UserSettings.toggle_project_status writable u n;
      mret (match r with Some b => VBool b | None => VNone end)
  | CreateIssue u d =>
      i ← UserSettings.create_issue clock writable u d; mret (VStr i)
  | UpdateIssueStatus u i s by_ =>
      b ← UserSettings.update_issue_status clock writable u i s by_;
      mret (VBool b)
  | AddRelatedMessage u i m =>
      b ← UserSettings.add_related_message clock writable u i m;
      mret (VBool b)
  | GetIssueStatistics u =>
      r ← UserSettings.get_issue_statistics updated_since u; mret (VStats r)
  end.

(** The calls in order; the values they return, in the same order. *)
Fixpoint run_calls (cs : list Call) : M (list Value) :=
  match cs with
  | [] => mret []
  | c :: rest =>
      v ← run_call c; vs ← run_calls rest; mret (v :: vs)
  end.

End Runs.

(** The fingerprint that [create_issue] gives to [issue_data]. *)
Definition issue_id_of (issue_data : IssueData.t) : string :=
  UserSettings._generate_issue_id
    (get (IssueData.original_text issue_data) "")
    (get (IssueData.channel issue_data) "")
    (get (IssueData.timestamp issue_data) "").

(** The calls that remove or replace the issue [issue_id] of [user_id]. *)
Definition disturbs (user_id issue_id : string) (c : Call) : Prop :=
  match c with
  | ClearUserSettings u => u = user_id
  | CreateIssue u d => u = user_id /\ issue_id_of d = issue_id
  | _ => False
  end.

(** The status updates of the issue [issue_id] of [user_id] among the
    calls: the new status and the [updated_by] argument of each. *)
Fixpoint status_updates (user_id issue_id : string) (cs : list Call)
  : list (string * option string) :=
  match cs with
  | [] => []
  | UpdateIssueStatus u i s by_ :: rest =>
      if String.eqb u user_id && String.eqb i issue_id
      then (s, by_) :: status_updates user_id issue_id rest
      else status_updates user_id issue_id rest
  | _ :: rest => status_updates user_id issue_id rest
  end.

(** The values returned by the status updates of the issue. *)
Fixpoint update_results (user_id issue_id : string) (cs : list Call)
  (vs : list Value) : list Value :=
  match cs, vs with
  | UpdateIssueStatus u i _ _ :: rest, v :: vs' =>
      if String.eqb u user_id && String.eqb i issue_id
      then v :: update_results user_id issue_id rest vs'
      else update_results user_id issue_id rest vs'
  | _ :: rest, _ :: vs' => update_results user_id issue_id rest vs'
  | _, _ => []
  end.

(** The transitions that a history records. *)
Definition transitions (h : list HistoryEntry.t)
  : list (option string * string) :=
  map (fun e => (HistoryEntry.previous_status e, HistoryEntry.status e)) h.

(** The transitions from [from] through the statuses [to], each starting
    where the one before it ended. *)
Fixpoint chain (from : string) (to : list string)
  : list (option string * string) :=
  match to with
  | [] => []
  | s :: rest => (Some from, s) :: chain s rest
  end.

(** The status and the status history of the stored issue, if there is
    one. *)
Definition audit (s : Settings) (user_id issue_id : string)
  : option (string * list HistoryEntry.t) :=
  match UserSettings.stored_issue s user_id issue_id with
  | Some i => Some (Issue.status i, Issue.status_history i)
  | None => None
  end.

(** The call is a status update of the issue [issue_id] of [user_id]. *)
Definition targets (user_id issue_id : string) (c : Call) : bool :=
  match c with
  | UpdateIssueStatus u i _ _ => String.eqb u user_id && String.eqb i issue_id
  | _ => false
  end.

(** ** Vocabulary of the further properties *)

(** [d.keys()] *)
Definition dict_keys {V : Type} (d : list (string * V)) : list string :=
  map fst d.


(** A token: not empty, and without whitespace. *)
Definition token (w : string) : Prop :=
  w <> "" /\ Forall (fun c => PyStr.is_space c = false) (list_ascii_of_string w).

(** The preferences and projects of a user record: all but the issues. *)
Definition beside_issues (r : UserRecord.t)
  : option string * option (list string) * option Z
    * option (gmap string Project.t) :=
  (UserRecord.custom_prompt r, UserRecord.keywords r,
   UserRecord.default_hours r, UserRecord.projects r).

(** The preferences and issues of a user record: all but the projects. *)
Definition beside_projects (r : UserRecord.t)
  : option string * option (list string) * option Z
    * option (list (string * Issue.t)) :=
  (UserRecord.custom_prompt r, UserRecord.keywords r,
   UserRecord.default_hours r, UserRecord.issues r).

(** Two worlds with the same settings and the same clock: they may differ
    in the settings file and in the count of the writes. *)
Definition same_memory (w1 w2 : World) : Prop :=
  settings w1 = settings w2 /\ ticks w1 = ticks w2.

(** The number of the issues with the given status, and with the given
    priority. *)
Definition count_with_status (status : string) (issues : list Issue.t) : nat :=
  length (List.filter (fun i => String.eqb (Issue.status i) status) issues).

Definition count_with_priority (priority : string) (issues : list Issue.t)
  : nat :=
  length (List.filter (fun i => String.eqb (Issue.priority i) priority) issues).

(** The words that [generate_issue_title] keeps from a text, before it
    joins the first twelve. *)
Definition kept_words (text : string) : list string :=
  List.filter (fun word =>
                 negb (existsb (String.eqb (PyStr.lower word)) skip_words)
                 && (2 <? String.length word)%nat)
    (PyStr.split
       (PyStr.re_delete match_url (PyStr.re_delete match_mention text))).

(** ** Concrete runs *)

(** A concrete run: a clock, a disk that accepts every write, and a
    report. *)
Definition clock0 (n : nat) : string :=
  nth n ["2024-05-01T12:00:00.000001"; "2024-05-01T12:00:00.000002";
         "2024-05-01T12:00:00.000003"; "2024-05-01T12:00:07.000001";
         "2024-05-01T12:00:07.000002"; "2024-05-01T12:00:09.000001"]
      "2024-05-01T12:01:00.000000".

Definition always_writable (n : nat) : bool := true.

Definition all_recent (reading : nat) (updated_at : string) : bool := true.

Definition pump_report : IssueData.t :=
  {| IssueData.title := Some "Pump fail";
     IssueData.description := Some "ure analysis";
     IssueData.original_text := Some "The pump is failing";
     IssueData.channel := Some "C042";
     IssueData.reporter := Some "U7";
     IssueData.timestamp := Some "1714560000.000100";
     IssueData.message_ts := Some "1714560000.000100";
     IssueData.status := None;
     IssueData.priority := Some "high";
     IssueData.tags := Some ["failure"];
     IssueData.types := Some ["failure"] |}.

(** The world after [create_issue("U1", pump_report)] in a new process
    without a settings file. *)
Definition pump_world : World :=
  snd (UserSettings.create_issue clock0 always_writable "U1" pump_report
         (UserSettings.__init__ None)).

Definition pump_id : string :=
  fst (UserSettings.create_issue clock0 always_writable "U1" pump_report
         (UserSettings.__init__ None)).

(** The world after [create_project("U1", "rover", ["C1"])] in a new
    process without a settings file. *)
Definition rover_world : World :=
  snd (UserSettings.create_project clock0 always_writable
         "U1" "rover" ["C1"] None (UserSettings.__init__ None)).

(** A run after the report: two status updates of the issue among calls
    on other things. *)
Definition pump_calls : list Call :=
  [ UpdateIssueStatus "U1" pump_id "investigating" None;
    AddRelatedMessage "U1" pump_id
      (MessageData.Make (Some "same here") (Some "U8") (Some "C042")
                        (Some "1714560100.000300") None);
    CreateProject "U1" "rover" ["C042"] None;
    UpdateIssueStatus "U2" pump_id "closed" None;
    UpdateIssueStatus "U1" pump_id "resolved" (Some "U9");
    GetIssueStatistics "U1" ].

(** The candidate of the repository's own test of status filters. *)
Definition second_bug : IssueData.t :=
  {| IssueData.title := Some "Bug 2";
     IssueData.description := None;
     IssueData.original_text := Some "Second bug";
     IssueData.channel := Some "ch2";
     IssueData.reporter := Some "user2";
     IssueData.timestamp := Some "2000000000";
     IssueData.message_ts := None;
     IssueData.status := Some "resolved";
     IssueData.priority := None;
     IssueData.tags := None;
     IssueData.types := None |}.

(** The issue that [create_issue("U1", pump_report)] stores. *)
Definition pump_issue : Issue.t :=
  {| Issue.id := pump_id;
     Issue.title := "Pump fail";
     Issue.description := "ure analysis";
     Issue.original_text := "The pump is failing";
     Issue.channel := "C042";
     Issue.reporter := "U7";
     Issue.timestamp := "1714560000.000100";
     Issue.message_ts := "1714560000.000100";
     Issue.status := "open";
     Issue.priority := "high";
     Issue.tags := ["failure"];
     Issue.related_messages := [];
     Issue.status_history :=
       [ {| HistoryEntry.status := "open";
            HistoryEntry.timestamp := clock0 0;
            HistoryEntry.user := "U1";
            HistoryEntry.previous_status := None |} ];
     Issue.created_at := clock0 1;
     Issue.updated_at := clock0 2 |}.

(** A later message on the same fault, and the message of the report as
    the detector reads it. *)
Definition same_here : MessageData.t :=
  MessageData.Make (Some "same here") (Some "U8") (Some "C042")
                   (Some "1714560100.000300") None.

Definition pump_message : Message.t :=
  Message.Make (Some "The pump is failing") (Some "U7") (Some "C042")
               (Some "1714560000.000100").

(** The project that [create_project("U1", "rover", ["C1"])] stores. *)
Definition rover_project : Project.t :=
  Project.Make ["C1"] [] (clock0 0) true.

(** A disk that refuses every write, and the world of the report in a
    process whose settings file was never written. *)
Definition never_writable (n : nat) : bool := false.

Definition pump_world_unsaved : World :=
  MakeWorld (settings pump_world) None (ticks pump_world) 0.

(** The world of the report after its status is set to the name of a key
    of the statistics. *)
Definition odd_world : World :=
  snd (UserSettings.update_issue_status clock0 always_writable
         "U1" pump_id "by_priority" None pump_world).

(** * Properties *)

(** ** Examples of the embedding *)

Example md5_empty :
  MD5.hexdigest [] = "d41d8cd98f00b204e9800998ecf8427e"%string.
Proof. vm_compute. reflexivity. Qed.

Example md5_abc :
  MD5.hexdigest (PyStr.encode "abc") = "900150983cd24fb0d6963f7d28e17f72"%string.
Proof. vm_compute. reflexivity. Qed.

Example md5_two_blocks :
  MD5.hexdigest (PyStr.encode
    "aaaaaaaaaaaaaaaaaaaaaaaaaaaaaaaaaaaaaaaaaaaaaaaaaaaaaaaaaaaaaaaaaaaaaa")
  = "0f5c6c4e740bfcc08c3c26ccb2673d46"%string.
Proof. vm_compute. reflexivity. Qed.

Example md5_latin1 :
  MD5.hexdigest (PyStr.encode
    (string_of_list_ascii (repeat (ascii_of_nat 233) 3)))
  = "e249ffe8e7a3532997a311336a3f1018"%string.
Proof. vm_compute. reflexivity. Qed.

Example split_ex :
  PyStr.split "  see  and x "%string = ["see"; "and"; "x"]%string.
Proof. vm_compute. reflexivity. Qed.

Example strip_ex : PyStr.strip "  a b  "%string = "a b"%string.
Proof. vm_compute. reflexivity. Qed.

(** ** Strings *)

Lemma append_nil (s : string) : "" +:+ s = s.
Proof. reflexivity. Qed.

Lemma append_cons (c : ascii) (s t : string) :
  String c s +:+ t = String c (s +:+ t).
Proof. reflexivity. Qed.

Lemma append_empty_r (s : string) : s +:+ "" = s.
Proof.
  induction s as [|c s IH]; [reflexivity | now rewrite append_cons, IH].
Qed.

Lemma append_assoc (a b c : string) : (a +:+ b) +:+ c = a +:+ b +:+ c.
Proof.
  induction a as [|x a IH]; [reflexivity | now rewrite !append_cons, IH].
Qed.

Lemma length_append (a b : string) :
  String.length (a +:+ b) = (String.length a + String.length b)%nat.
Proof.
  induction a as [|x a IH]; [reflexivity |].
  rewrite append_cons. simpl. now rewrite IH.
Qed.

Lemma prefix_spec (p s : string) :
  String.prefix p s = true <-> exists b : string, s = p +:+ b.
Proof.
  revert s. induction p as [|c p IH]; intros s.
  - split; [intros _; now exists s | intros _; now destruct s].
  - destruct s as [|d s]; simpl.
    + split; [discriminate | intros [b Hb]; discriminate].
    + destruct (Ascii.ascii_dec c d) as [->|Hne].
      * rewrite IH. split; intros [b Hb]; exists b.
        -- now rewrite append_cons, Hb.
        -- rewrite append_cons in Hb. now injection Hb.
      * split; [discriminate |].
        intros [b Hb]. rewrite append_cons in Hb. injection Hb. congruence.
Qed.

Lemma contains_spec (p s : string) :
  PyStr.contains p s = true <-> occurs p s.
Proof.
  induction s as [|c s IH].
  - change (PyStr.contains p "") with (String.prefix p "" || false).
    rewrite orb_false_r, prefix_spec. split.
    + intros [b Hb]. now exists "", b.
    + intros [a [b Hab]]. destruct a; [now exists b | discriminate].
  - change (PyStr.contains p (String c s))
      with (String.prefix p (String c s) || PyStr.contains p s).
    rewrite orb_true_iff, IH, prefix_spec. split.
    + intros [[b Hb] | [a [b Hab]]].
      * now exists "", b.
      * exists (String c a), b. now rewrite append_cons, Hab.
    + intros [a [b Hab]]. destruct a as [|x a].
      * left. now exists b.
      * right. exists a, b. rewrite append_cons in Hab. now injection Hab.
Qed.

Lemma any_in_spec (ws : list string) (s : string) :
  PyStr.any_in ws s = true <-> occurs_any ws s.
Proof.
  unfold PyStr.any_in, occurs_any. rewrite existsb_exists.
  split; intros [w [Hin H]]; exists w; split; trivial;
    now apply contains_spec.
Qed.

Lemma any_in_false (ws : list string) (s : string) :
  PyStr.any_in ws s = false <-> ~ occurs_any ws s.
Proof.
  rewrite <- any_in_spec. destruct (PyStr.any_in ws s).
  - split; [discriminate | intros H; now contradict H].
  - split; [intros _; discriminate | reflexivity].
Qed.

(** ** The priority extractor *)

Lemma priority_cases (text : string) :
  let t := PyStr.lower text in
  extract_issue_priority text =
    if PyStr.any_in critical_words t then "critical"
    else if PyStr.any_in high_words t then "high"
    else if PyStr.any_in low_words t then "low"
    else "medium".
Proof. reflexivity. Qed.

(** C3.  The priority is "critical" when a critical-family word occurs in
    the lower-cased text, otherwise "high" when a high-family word occurs,
    otherwise "low" when a low-family word occurs, otherwise "medium"; so a
    text with both a critical and a low signal word is "critical"; and the
    three examples of the specification evaluate as it says. *)
Theorem extract_issue_priority_precedence (text : string) :
  let t := PyStr.lower text in
  (occurs_any critical_words t -> extract_issue_priority text = "critical")
  /\ (~ occurs_any critical_words t -> occurs_any high_words t ->
      extract_issue_priority text = "high")
  /\ (~ occurs_any critical_words t -> ~ occurs_any high_words t ->
      occurs_any low_words t -> extract_issue_priority text = "low")
  /\ (~ occurs_any critical_words t -> ~ occurs_any high_words t ->
      ~ occurs_any low_words t -> extract_issue_priority text = "medium")
  /\ (occurs_any critical_words t -> occurs_any low_words t ->
      extract_issue_priority text = "critical")
  /\ extract_issue_priority "Critical system failure" = "critical"
  /\ extract_issue_priority "Minor cosmetic problem" = "low"
  /\ extract_issue_priority "Regular bug report" = "medium".
Proof.
  intros t. rewrite priority_cases. fold t.
  repeat split.
  - intros Hc. apply any_in_spec in Hc. now rewrite Hc.
  - intros Hc Hh. apply any_in_false in Hc. apply any_in_spec in Hh.
    now rewrite Hc, Hh.
  - intros Hc Hh Hl. apply any_in_false in Hc, Hh. apply any_in_spec in Hl.
    now rewrite Hc, Hh, Hl.
  - intros Hc Hh Hl. apply any_in_false in Hc, Hh, Hl.
    now rewrite Hc, Hh, Hl.
  - intros Hc _. apply any_in_spec in Hc. now rewrite Hc.
Qed.

Lemma extract_issue_priority_precedence_witness :
  extract_issue_priority "URGENT: low battery" = "critical".
Proof.
  destruct (extract_issue_priority_precedence "URGENT: low battery")
    as (_ & _ & _ & _ & both & _).
  apply both.
  - exists "urgent". split; [simpl; tauto |].
    exists "", ": low battery". reflexivity.
  - exists "low". split; [simpl; tauto |].
    exists "urgent: ", " battery". reflexivity.
Defined.

(** C10.  The signal words are matched as substrings, with no test of word
    boundaries: when a high-family word occurs anywhere in the lower-cased
    text, also inside a longer word, and no critical-family word occurs,
    the priority is "high".  "The highway is closed" is "high" although
    none of its words is a signal word. *)
Theorem extract_issue_priority_embedded (text w before after : string) :
  In w high_words ->
  PyStr.lower text = before +:+ w +:+ after ->
  ~ occurs_any critical_words (PyStr.lower text) ->
  extract_issue_priority text = "high"
  /\ extract_issue_priority text <> "medium"
  /\ extract_issue_priority "The highway is closed" = "high"
  /\ PyStr.split (PyStr.lower "The highway is closed")
     = ["the"; "highway"; "is"; "closed"]
  /\ Forall (fun word => ~ In word (critical_words ++ high_words ++ low_words))
            (PyStr.split (PyStr.lower "The highway is closed")).
Proof.
  intros Hw Hocc Hcrit.
  assert (Hhigh : extract_issue_priority text = "high").
  { rewrite priority_cases.
    apply any_in_false in Hcrit. rewrite Hcrit.
    assert (Hh : PyStr.any_in high_words (PyStr.lower text) = true).
    { apply any_in_spec. exists w. split; [exact Hw |].
      now exists before, after. }
    now rewrite Hh. }
  split; [exact Hhigh |].
  split; [rewrite Hhigh; discriminate |].
  split; [reflexivity |].
  assert (Hwords : PyStr.split (PyStr.lower "The highway is closed")
                   = ["the"; "highway"; "is"; "closed"])
    by (vm_compute; reflexivity).
  rewrite Hwords. split; [reflexivity |].
  repeat (apply List.Forall_cons;
          [ intros Hin; cbv [critical_words high_words low_words app In] in Hin;
            repeat (destruct Hin as [Hin | Hin]; [discriminate Hin |]);
            exact Hin
          | ]).
  apply List.Forall_nil.
Qed.

Lemma extract_issue_priority_embedded_witness :
  extract_issue_priority "The highway is closed" = "high".
Proof.
  apply (extract_issue_priority_embedded
           "The highway is closed" "high" "the " "way is closed").
  - simpl. tauto.
  - reflexivity.
  - apply any_in_false. reflexivity.
Defined.

(** ** The keyword classifier *)

(** C4.  A tag is in the result exactly when one of the patterns of its
    family is a substring of the lower-cased text, each family on its own;
    the empty text has no tag; the PCB example has the tags "bug" and
    "hardware" and the lunch example has none. *)
Theorem detect_issue_keywords_union (text : string) :
  (forall tag : string,
     In tag (detect_issue_keywords text) <->
     exists patterns : list string,
       In (tag, patterns) issue_patterns
       /\ occurs_any patterns (PyStr.lower text))
  /\ detect_issue_keywords "" = []
  /\ In "bug" (detect_issue_keywords "The PCB has a bug in the power circuit")
  /\ In "hardware"
        (detect_issue_keywords "The PCB has a bug in the power circuit")
  /\ detect_issue_keywords "Let's grab lunch today" = [].
Proof.
  split; [| repeat split; vm_compute; tauto].
  intros tag. unfold detect_issue_keywords. rewrite in_map_iff. split.
  - intros [[tag' patterns] [Htag Hin]]. simpl in Htag. subst tag'.
    apply filter_In in Hin. destruct Hin as [Hin Hany].
    exists patterns. split; [exact Hin |]. now apply any_in_spec.
  - intros [patterns [Hin Hany]]. exists (tag, patterns).
    split; [reflexivity |]. apply filter_In. split; [exact Hin |].
    now apply any_in_spec.
Qed.

Lemma detect_issue_keywords_union_witness :
  In "regression" (detect_issue_keywords "It BROKE again").
Proof.
  apply (proj1 (detect_issue_keywords_union "It BROKE again")).
  exists ["regression"; "broke"; "used to work"; "was working"].
  split; [simpl; tauto |].
  exists "broke". split; [simpl; tauto |].
  exists "it ", " again". reflexivity.
Defined.

(** ** The issue fingerprint *)

Lemma hex_digit_is_hex (n : Z) : is_hex (MD5.hex_digit n).
Proof.
  unfold is_hex, MD5.hex_digit.
  destruct (nth_in_or_default (Z.to_nat n)
              (list_ascii_of_string "0123456789abcdef") "0"%char)
    as [Hin | ->]; [exact Hin | simpl; tauto].
Qed.

Lemma take8_hexdigest (msg : list Z) :
  exists a b c d : Z,
    PyStr.take 8 (MD5.hexdigest msg)
    = MD5.hex_byte a +:+ MD5.hex_byte b +:+ MD5.hex_byte c +:+ MD5.hex_byte d.
Proof.
  unfold MD5.hexdigest, MD5.digest.
  generalize (MD5.process (length (MD5.pad msg) / 64) MD5.init (MD5.pad msg)).
  intros s.
  exists (MD5.sa s mod 256)%Z, (MD5.sa s / 256 mod 256)%Z,
         (MD5.sa s / 256 / 256 mod 256)%Z,
         (MD5.sa s / 256 / 256 / 256 mod 256)%Z.
  reflexivity.
Qed.

(** C2.  The fingerprint is a function of the first 100 characters of the
    text, the channel and the timestamp: it is a string of 8 hexadecimal
    digits, and two texts with the same first 100 characters get the same
    fingerprint with the same channel and timestamp, whatever follows. *)
Theorem generate_issue_id_prefix (text1 text2 channel timestamp : string) :
  PyStr.take 100 text1 = PyStr.take 100 text2 ->
  UserSettings._generate_issue_id text1 channel timestamp
  = UserSettings._generate_issue_id text2 channel timestamp
  /\ String.length (UserSettings._generate_issue_id text1 channel timestamp)
     = 8%nat
  /\ Forall is_hex
       (list_ascii_of_string
          (UserSettings._generate_issue_id text1 channel timestamp)).
Proof.
  intros Hprefix. unfold UserSettings._generate_issue_id.
  rewrite Hprefix. split; [reflexivity |].
  destruct (take8_hexdigest
              (PyStr.encode (PyStr.take 100 text2 +:+ channel +:+ timestamp)))
    as (a & b & c & d & ->).
  split; [reflexivity |].
  unfold MD5.hex_byte. cbv [String.append list_ascii_of_string].
  repeat (apply List.Forall_cons; [apply hex_digit_is_hex |]).
  apply List.Forall_nil.
Qed.

Lemma generate_issue_id_prefix_witness :
  let prefix :=
    "The pump controller reports an error code when the valve opens and the log shows a timeout after it."
  in
  String.length prefix = 100%nat
  /\ UserSettings._generate_issue_id (prefix +:+ " First report") "C1" "1.5"
     = UserSettings._generate_issue_id (prefix +:+ " Second report") "C1" "1.5".
Proof.
  split; [reflexivity |].
  apply (generate_issue_id_prefix
           ("The pump controller reports an error code when the valve opens and the log shows a timeout after it."
            +:+ " First report")
           ("The pump controller reports an error code when the valve opens and the log shows a timeout after it."
            +:+ " Second report") "C1" "1.5").
  reflexivity.
Defined.

(** ** The title generator *)

Lemma length_take (n : nat) (s : string) :
  (String.length (PyStr.take n s) <= n)%nat.
Proof.
  revert s. induction n as [|n IH]; intros s; [simpl; lia |].
  destruct s as [|c s]; simpl; [lia |]. specialize (IH s). lia.
Qed.

Lemma length_lstrip (s : string) :
  (String.length (PyStr.lstrip s) <= String.length s)%nat.
Proof.
  induction s as [|c s IH]; simpl; [lia |].
  destruct (PyStr.is_space c); simpl; lia.
Qed.

Lemma length_rstrip (s : string) :
  (String.length (PyStr.rstrip s) <= String.length s)%nat.
Proof.
  induction s as [|c s IH]; simpl; [lia |].
  destruct (PyStr.rstrip s) as [|d r]; simpl in *.
  - destruct (PyStr.is_space c); simpl; lia.
  - lia.
Qed.

Lemma length_strip (s : string) :
  (String.length (PyStr.strip s) <= String.length s)%nat.
Proof.
  unfold PyStr.strip. pose proof (length_rstrip (PyStr.lstrip s)).
  pose proof (length_lstrip s). lia.
Qed.

(** The last two steps of [generate_issue_title], on the joined title. *)
Lemma truncate_bound (title : string) (max_length : Z) :
  (3 <= max_length)%Z ->
  (Z.of_nat
     (String.length
        (PyStr.strip
           (if (max_length <? Z.of_nat (String.length title))%Z
            then PyStr.slice_to title (max_length - 3) +:+ "..."
            else title)))
   <= max_length)%Z.
Proof.
  intros Hmax.
  destruct (Z.ltb_spec max_length (Z.of_nat (String.length title)))
    as [Hlong | Hshort].
  - pose proof (length_strip
                  (PyStr.slice_to title (max_length - 3) +:+ "...")) as Hs.
    rewrite length_append in Hs. unfold PyStr.slice_to in Hs |- *.
    destruct (Z.leb_spec 0 (max_length - 3)) as [_ | Hneg]; [| lia].
    pose proof (length_take (Z.to_nat (max_length - 3)) title).
    simpl String.length in Hs. lia.
  - pose proof (length_strip title). lia.
Qed.

(** C5, as amended.  For every text and every [max_length] of at least 3,
    the title has at most [max_length] characters. *)
Theorem generate_issue_title_bound (text : string) (max_length : Z) :
  (3 <= max_length)%Z ->
  (Z.of_nat (String.length (generate_issue_title text max_length))
   <= max_length)%Z.
Proof.
  intros Hmax. unfold generate_issue_title. cbv zeta.
  now apply truncate_bound.
Qed.

Lemma generate_issue_title_bound_witness :
  (Z.of_nat
     (String.length
        (generate_issue_title
           "The motor driver PCB has a short circuit in the power section" 20))
   <= 20)%Z.
Proof.
  apply (generate_issue_title_bound
           "The motor driver PCB has a short circuit in the power section" 20).
  lia.
Defined.

(** C5, as stated, fails below 3: with [max_length = 2] the slice
    [title[:-1]] drops one character and the marker adds three. *)
Lemma generate_issue_title_bound_counterexample :
  generate_issue_title "abcdefgh" 2 = "abcdefg..."
  /\ ~ (Z.of_nat (String.length (generate_issue_title "abcdefgh" 2)) <= 2)%Z.
Proof.
  split; [vm_compute; reflexivity |].
  vm_compute. intros H. apply H. reflexivity.
Qed.

(** ** The issue detector *)

Lemma detect_loop_spec (messages : list Message.t)
  (detected_issues : list IssueData.t) :
  App.detect_loop messages detected_issues
  = (detected_issues
       ++ map App.issue_data_of (List.filter has_issue_keywords messages))%list.
Proof.
  revert detected_issues.
  induction messages as [|message rest IH]; intros detected_issues; simpl.
  - now rewrite app_nil_r.
  - unfold has_issue_keywords.
    destruct (detect_issue_keywords (get (Message.text message) ""))
      as [|tag tags]; rewrite IH; [reflexivity |].
    simpl. now rewrite <- app_assoc.
Qed.

(** C6.  The detector returns, in the order of the input, one candidate
    for each message whose text has an issue tag, and nothing else; the
    candidate of a message with text, user, channel and timestamp has the
    generated title, the extracted priority, the tags of the classifier as
    [types] and as [tags], the text, the channel, the user as reporter and
    the timestamp twice; the process state is left as it was. *)
Theorem detect_and_track_issues_spec (messages : list Message.t)
  (user_id : string) (w : World) :
  App.detect_and_track_issues messages user_id w
  = (map App.issue_data_of (List.filter has_issue_keywords messages), w)
  /\ (forall m : Message.t,
        has_issue_keywords m = true <->
        detect_issue_keywords (get (Message.text m) "") <> [])
  /\ (forall text user channel ts : string,
        App.issue_data_of
          (Message.Make (Some text) (Some user) (Some channel) (Some ts))
        = {| IssueData.title :=
               Some (generate_issue_title text default_max_length);
             IssueData.description := None;
             IssueData.original_text := Some text;
             IssueData.channel := Some channel;
             IssueData.reporter := Some user;
             IssueData.timestamp := Some ts;
             IssueData.message_ts := Some ts;
             IssueData.status := None;
             IssueData.priority := Some (extract_issue_priority text);
             IssueData.tags := Some (detect_issue_keywords text);
             IssueData.types := Some (detect_issue_keywords text) |}).
Proof.
  split; [| split].
  - unfold App.detect_and_track_issues, mret, M_ret.
    now rewrite detect_loop_spec.
  - intros m. unfold has_issue_keywords.
    destruct (detect_issue_keywords (get (Message.text m) "")); split;
      congruence.
  - reflexivity.
Qed.

(** ** Statistics *)

Lemma count_status_known (status : string) (st : Stats.t) :
  In status statuses ->
  exists st' : Stats.t,
    UserSettings.count_status status st = Ok st'
    /\ Stats.total st' = Stats.total st
    /\ status_sum st' = S (status_sum st)
    /\ Stats.by_priority st' = Stats.by_priority st.
Proof.
  intros Hin. destruct st as [t o i r c p a].
  unfold statuses in Hin. simpl in Hin.
  destruct Hin as [<- | [<- | [<- | [<- | []]]]];
    (eexists; split; [reflexivity |]);
    unfold status_sum; simpl; repeat split; lia.
Qed.

Lemma count_priority_known (priority : string) (p : Stats.priorities) :
  In priority priorities ->
  let p' := UserSettings.count_priority priority p in
  (Stats.low p' + Stats.medium p' + Stats.high p' + Stats.critical p'
   = S (Stats.low p + Stats.medium p + Stats.high p + Stats.critical p))%nat.
Proof.
  intros Hin. destruct p as [l m h c].
  unfold priorities in Hin. simpl in Hin.
  destruct Hin as [<- | [<- | [<- | [<- | []]]]]; simpl; lia.
Qed.

Lemma count_issue_classified (updated_since : nat -> string -> bool)
  (reading : nat) (st : Stats.t) (issue : Issue.t) :
  classified issue ->
  exists st' : Stats.t,
    UserSettings.count_issue updated_since reading (Ok st) issue = Ok st'
    /\ Stats.total st' = Stats.total st
    /\ status_sum st' = S (status_sum st)
    /\ priority_sum st' = S (priority_sum st).
Proof.
  intros [Hstatus Hpriority]. unfold UserSettings.count_issue.
  destruct (count_status_known (Issue.status issue) st Hstatus)
    as (st1 & -> & Htotal & Hsum & Hprio).
  destruct st1 as [t o i r c p a]. simpl in Htotal, Hprio.
  pose proof (count_priority_known (Issue.priority issue) p Hpriority) as Hp.
  unfold status_sum in Hsum. simpl in Hsum, Hp.
  destruct (updated_since reading (Issue.updated_at issue));
    (eexists; split; [reflexivity |]);
    unfold status_sum, priority_sum; simpl; subst p; repeat split; lia.
Qed.

Lemma count_issues_classified (updated_since : nat -> string -> bool)
  (reading : nat) (issues : list Issue.t) (st : Stats.t) :
  Forall classified issues ->
  exists st' : Stats.t,
    fold_left (UserSettings.count_issue updated_since reading) issues (Ok st)
    = Ok st'
    /\ Stats.total st' = Stats.total st
    /\ status_sum st' = (status_sum st + length issues)%nat
    /\ priority_sum st' = (priority_sum st + length issues)%nat.
Proof.
  revert st. induction issues as [|issue rest IH]; intros st Hall.
  - exists st. simpl. repeat split; lia.
  - apply List.Forall_cons_iff in Hall. destruct Hall as [Hissue Hrest].
    destruct (count_issue_classified updated_since reading st issue Hissue)
      as (st1 & Hstep & Htotal & Hs & Hp).
    destruct (IH st1 Hrest) as (st2 & Hfold & Htotal2 & Hs2 & Hp2).
    exists st2. cbn [fold_left length]. rewrite Hstep, Hfold.
    repeat split; lia.
Qed.

(** C7, as amended.  When every stored issue of the user has one of the
    four statuses and one of the four priorities, the statistics are
    returned, [total] is the number of the user's issues, the priority
    counts add up to [total] and so do the four status counts. *)
Theorem get_issue_statistics_consistent
  (updated_since : nat -> string -> bool) (user_id : string) (w : World) :
  let issues := UserSettings.get_user_issues (settings w) user_id None in
  Forall classified (Dict.values issues) ->
  exists stats : Stats.t,
    fst (UserSettings.get_issue_statistics updated_since user_id w) = Ok stats
    /\ Stats.total stats = length issues
    /\ priority_sum stats = Stats.total stats
    /\ status_sum stats = Stats.total stats.
Proof.
  intros issues Hall.
  destruct (count_issues_classified updated_since (ticks w)
              (Dict.values issues)
              (Stats.Make (length issues) 0 0 0 0
                          (Stats.MakePriorities 0 0 0 0) 0) Hall)
    as (stats & Hfold & Htotal & Hs & Hp).
  exists stats. split; [exact Hfold |].
  unfold Dict.values in Hs, Hp. rewrite length_map in Hs, Hp.
  simpl in Htotal. unfold status_sum in Hs at 2.
  unfold priority_sum in Hp at 2. simpl in Hs, Hp.
  repeat split; lia.
Qed.

Lemma get_issue_statistics_consistent_witness :
  exists stats : Stats.t,
    fst (UserSettings.get_issue_statistics all_recent "U1" pump_world)
    = Ok stats
    /\ Stats.total stats = 1%nat
    /\ priority_sum stats = Stats.total stats
    /\ status_sum stats = Stats.total stats.
Proof.
  apply (get_issue_statistics_consistent all_recent "U1" pump_world).
  match goal with
  | |- Forall classified ?l =>
      let v := eval vm_compute in l in
      replace l with v by (vm_compute; reflexivity)
  end.
  apply List.Forall_cons; [split; simpl; tauto | apply List.Forall_nil].
Defined.

(** C7, as stated, fails for a stored status outside the four, which
    [update_issue_status] accepts: the issue counts in [total] and in no
    status count. *)
Lemma get_issue_statistics_counterexample :
  let run :=
    UserSettings.update_issue_status clock0 always_writable
      "U1" pump_id "wontfix" None pump_world in
  let stats :=
    fst (UserSettings.get_issue_statistics all_recent "U1" (snd run)) in
  fst run = true
  /\ stats = Ok (Stats.Make 1 0 0 0 0 (Stats.MakePriorities 0 0 1 0) 1)
  /\ (forall st : Stats.t, stats = Ok st -> status_sum st <> Stats.total st).
Proof.
  split; [vm_compute; reflexivity |].
  split; [vm_compute; reflexivity |].
  intros st Hst. vm_compute in Hst. injection Hst as <-.
  vm_compute. discriminate.
Qed.

(** ** Absent targets *)

Lemma dict_lookup_nil {V : Type} (k : string) :
  Dict.lookup k ([] : list (string * V)) = None.
Proof. reflexivity. Qed.

Lemma get_issue_stored (s : Settings) (user_id issue_id : string) :
  UserSettings.get_issue s user_id issue_id
  = UserSettings.stored_issue s user_id issue_id.
Proof.
  unfold UserSettings.get_issue, UserSettings.get_user_issues,
    UserSettings.get_user_settings, UserSettings.stored_issue.
  destruct (s !! user_id) as [u|]; simpl; [| reflexivity].
  destruct (UserRecord.issues u); reflexivity.
Qed.

Lemma get_project_stored (s : Settings) (user_id project_name : string) :
  UserSettings.get_project s user_id project_name
  = UserSettings.stored_project s user_id project_name.
Proof.
  unfold UserSettings.get_project, UserSettings.get_user_projects,
    UserSettings.get_user_settings, UserSettings.stored_project.
  destruct (s !! user_id) as [u|]; simpl; [| apply lookup_empty].
  destruct (UserRecord.projects u); simpl; [reflexivity | apply lookup_empty].
Qed.

Lemma stored_project_put (s : Settings) (user_id project_name : string)
  (p0 p : Project.t) :
  UserSettings.stored_project s user_id project_name = Some p0 ->
  UserSettings.stored_project
    (UserSettings.put_project user_id project_name p s) user_id project_name
  = Some p.
Proof.
  unfold UserSettings.stored_project, UserSettings.put_project.
  rewrite lookup_alter_eq.
  destruct (s !! user_id) as [u|]; simpl; [| discriminate].
  intros _. apply lookup_insert_eq.
Qed.

(** C9.  For an issue id that the user does not have, [update_issue_status]
    and [add_related_message] return [False] and leave the whole process
    state, settings and file, as it was; for a project name that the user
    does not have, [toggle_project_status] returns [None], which is no
    boolean, and changes nothing; for a project that the user has, it
    returns the negation of the [active] flag and stores that negation. *)
Theorem absent_targets (clock : nat -> string) (writable : nat -> bool)
  (user_id : string) (w : World) :
  (forall (issue_id new_status : string) (updated_by : option string),
     UserSettings.get_issue (settings w) user_id issue_id = None ->
     UserSettings.update_issue_status clock writable
       user_id issue_id new_status updated_by w = (false, w))
  /\ (forall (issue_id : string) (message_data : MessageData.t),
        UserSettings.get_issue (settings w) user_id issue_id = None ->
        UserSettings.add_related_message clock writable
          user_id issue_id message_data w = (false, w))
  /\ (forall project_name : string,
        UserSettings.get_project (settings w) user_id project_name = None ->
        UserSettings.toggle_project_status writable user_id project_name w
        = (None, w))
  /\ (forall (project_name : string) (p : Project.t),
        UserSettings.get_project (settings w) user_id project_name = Some p ->
        exists w' : World,
          UserSettings.toggle_project_status writable user_id project_name w
          = (Some (negb (Project.active p)), w')
          /\ UserSettings.get_project (settings w') user_id project_name
             = Some (Project.set_active (negb (Project.active p)) p)).
Proof.
  repeat split.
  - intros issue_id new_status updated_by Habsent.
    rewrite get_issue_stored in Habsent.
    unfold UserSettings.update_issue_status, mbind, M_bind, read.
    now rewrite Habsent.
  - intros issue_id message_data Habsent.
    rewrite get_issue_stored in Habsent.
    unfold UserSettings.add_related_message, mbind, M_bind, read.
    now rewrite Habsent.
  - intros project_name Habsent.
    rewrite get_project_stored in Habsent.
    unfold UserSettings.toggle_project_status, mbind, M_bind, read.
    now rewrite Habsent.
  - intros project_name p Hpresent.
    rewrite get_project_stored in Hpresent.
    unfold UserSettings.toggle_project_status, mbind, M_bind, read.
    rewrite Hpresent. simpl. eexists. split; [reflexivity |].
    simpl. rewrite get_project_stored.
    now apply stored_project_put with (p0 := p).
Qed.

Lemma absent_targets_witness :
  fst (UserSettings.toggle_project_status always_writable
         "U1" "rover" rover_world) = Some false
  /\ UserSettings.update_issue_status clock0 always_writable
    "U1" "00000000" "resolved" None pump_world = (false, pump_world)
  /\ UserSettings.add_related_message clock0 always_writable
       "U2" pump_id (MessageData.Make (Some "same here") None None None None)
       pump_world = (false, pump_world)
  /\ UserSettings.toggle_project_status always_writable "U1" "rover" pump_world
     = (None, pump_world).
Proof.
  destruct (absent_targets clock0 always_writable "U1" pump_world)
    as (Hupdate & _ & Htoggle & _).
  destruct (absent_targets clock0 always_writable "U2" pump_world)
    as (_ & Hadd & _).
  destruct (absent_targets clock0 always_writable "U1" rover_world)
    as (_ & _ & _ & Hflip).
  split.
  { destruct (Hflip "rover"
                (Project.Make ["C1"] [] "2024-05-01T12:00:00.000001" true))
      as (w' & -> & _); [vm_compute |]; reflexivity. }
  split; [apply Hupdate; vm_compute; reflexivity |].
  split; [apply Hadd; vm_compute; reflexivity |].
  apply Htoggle. vm_compute. reflexivity.
Defined.

(** ** Sorting in reverse *)

Lemma ltb_leb (a b : string) : String.ltb a b = true -> String.leb a b = true.
Proof.
  unfold String.ltb, String.leb. now destruct (String.compare a b).
Qed.

Lemma ltb_false_leb (a b : string) :
  String.ltb a b = false -> String.leb b a = true.
Proof.
  unfold String.ltb, String.leb. rewrite (String.compare_antisym a b).
  now destruct (String.compare b a).
Qed.

Lemma ltb_irrefl (a : string) : String.ltb a a = false.
Proof.
  unfold String.ltb. pose proof (String.compare_antisym a a) as H.
  now destruct (String.compare a a).
Qed.

Lemma leb_trans (a b c : string) :
  String.leb a b = true -> String.leb b c = true -> String.leb a c = true.
Proof.
  intros Hab Hbc. apply Is_true_true.
  apply Is_true_true in Hab, Hbc.
  change (String.le a c). change (String.le a b) in Hab.
  change (String.le b c) in Hbc. now transitivity b.
Qed.

Section SortReverse.
Context {A : Type} (key : A -> string).

Lemma insert_reverse_perm (x : A) (l : list A) :
  Permutation (insert_reverse key x l) (x :: l).
Proof.
  induction l as [|y r IH]; simpl; [reflexivity |].
  destruct (String.ltb (key x) (key y)); [| reflexivity].
  rewrite IH. apply perm_swap.
Qed.

Lemma sort_reverse_perm (l : list A) : Permutation (sort_reverse key l) l.
Proof.
  induction l as [|x l IH]; simpl; [reflexivity |].
  rewrite insert_reverse_perm. now apply perm_skip.
Qed.

Lemma insert_reverse_sorted (x : A) (l : list A) :
  StronglySorted (key_ge key) l -> StronglySorted (key_ge key) (insert_reverse key x l).
Proof.
  induction l as [|y r IH]; intros Hsorted; simpl.
  - constructor; constructor.
  - apply StronglySorted_inv in Hsorted. destruct Hsorted as [Hr Hy].
    destruct (String.ltb (key x) (key y)) eqn:Hlt.
    + constructor; [now apply IH |].
      apply List.Forall_forall. intros z Hz.
      apply (Permutation_in _ (insert_reverse_perm x r)) in Hz.
      destruct Hz as [<- | Hz].
      * now apply ltb_leb.
      * now apply (proj1 (List.Forall_forall _ _) Hy).
    + constructor; [now constructor |].
      constructor; [now apply ltb_false_leb |].
      apply List.Forall_forall. intros z Hz.
      apply (proj1 (List.Forall_forall _ _) Hy) in Hz.
      unfold key_ge in *. apply leb_trans with (b := key y); [exact Hz |].
      now apply ltb_false_leb.
Qed.

Lemma sort_reverse_sorted (l : list A) :
  StronglySorted (key_ge key) (sort_reverse key l).
Proof.
  induction l as [|x l IH]; simpl; [constructor |].
  now apply insert_reverse_sorted.
Qed.

Lemma insert_reverse_stable (k : string) (x : A) (l : list A) :
  List.filter (fun y => String.eqb (key y) k) (insert_reverse key x l)
  = List.filter (fun y => String.eqb (key y) k) (x :: l).
Proof.
  induction l as [|y r IH]; [reflexivity |].
  cbn [insert_reverse].
  destruct (String.ltb (key x) (key y)) eqn:Hlt; [| reflexivity].
  cbn [List.filter] in *. rewrite IH.
  destruct (String.eqb_spec (key x) k) as [Hx | Hx];
    destruct (String.eqb_spec (key y) k) as [Hy | Hy]; try reflexivity.
  rewrite Hx, Hy, ltb_irrefl in Hlt. discriminate.
Qed.

Lemma sort_reverse_stable (k : string) (l : list A) :
  List.filter (fun y => String.eqb (key y) k) (sort_reverse key l)
  = List.filter (fun y => String.eqb (key y) k) l.
Proof.
  induction l as [|x l IH]; [reflexivity |].
  cbn [sort_reverse fold_right]. fold (sort_reverse key l).
  rewrite insert_reverse_stable. cbn [List.filter]. now rewrite IH.
Qed.

End SortReverse.

(** ** Search *)

(** C8, as amended.  [search_issues] returns exactly the stored issues of
    the user for which the lower-cased query is a substring of the
    lower-cased text made of title, description and original text joined by
    single spaces, each as often as it is stored; the result is in
    descending order of [updated_at], and issues with the same [updated_at]
    keep the order of the issue mapping. *)
Theorem search_issues_spec (s : Settings) (user_id query : string) :
  let stored := Dict.values (UserSettings.get_user_issues s user_id None) in
  let found := UserSettings.search_issues s user_id query in
  (forall issue : Issue.t,
     UserSettings.search_match query issue = true <->
     occurs (PyStr.lower query) (searchable_text issue))
  /\ (forall issue : Issue.t,
        In issue found <->
        In issue stored
        /\ occurs (PyStr.lower query) (searchable_text issue))
  /\ Permutation found (List.filter (UserSettings.search_match query) stored)
  /\ StronglySorted (key_ge Issue.updated_at) found
  /\ (forall updated_at : string,
        List.filter (fun i => String.eqb (Issue.updated_at i) updated_at) found
        = List.filter (fun i => String.eqb (Issue.updated_at i) updated_at)
            (List.filter (UserSettings.search_match query) stored)).
Proof.
  intros stored found.
  assert (Hmatch : forall issue : Issue.t,
            UserSettings.search_match query issue = true <->
            occurs (PyStr.lower query) (searchable_text issue)).
  { intros issue. unfold UserSettings.search_match, searchable_text.
    apply contains_spec. }
  assert (Hperm : Permutation found
                    (List.filter (UserSettings.search_match query) stored)).
  { apply sort_reverse_perm. }
  split; [exact Hmatch |].
  split.
  { intros issue. rewrite <- Hmatch, <- filter_In. split; intros Hin.
    - now apply (Permutation_in _ Hperm).
    - now apply (Permutation_in _ (Permutation_sym Hperm)). }
  split; [exact Hperm |].
  split; [apply sort_reverse_sorted |].
  intros updated_at. apply sort_reverse_stable.
Qed.

(** C8, as stated, fails: the query is searched in the fields joined by
    spaces, not in their concatenation.  "failure" occurs in the
    concatenation of the title "Pump fail" and the description
    "ure analysis" of the stored issue, and the search finds nothing. *)
Lemma search_issues_counterexample :
  exists issue : Issue.t,
    UserSettings.get_issue (settings pump_world) "U1" pump_id = Some issue
    /\ occurs (PyStr.lower "failure")
         (PyStr.lower (Issue.title issue +:+ Issue.description issue
                       +:+ Issue.original_text issue))
    /\ UserSettings.search_issues (settings pump_world) "U1" "failure" = [].
Proof.
  eexists. split; [vm_compute; reflexivity |].
  split; [| vm_compute; reflexivity].
  exists "pump ", " analysisthe pump is failing". vm_compute. reflexivity.
Qed.

Lemma search_issues_spec_witness :
  exists issue : Issue.t,
    UserSettings.get_issue (settings pump_world) "U1" pump_id = Some issue
    /\ In issue (UserSettings.search_issues (settings pump_world) "U1" "PUMP").
Proof.
  eexists. split; [vm_compute; reflexivity |].
  apply (proj1 (proj2 (search_issues_spec (settings pump_world) "U1" "PUMP"))).
  split.
  - vm_compute. left. reflexivity.
  - exists "", " fail ure analysis the pump is failing". vm_compute. reflexivity.
Defined.

Lemma detect_and_track_issues_spec_witness :
  let broken := Message.Make (Some "The build is broken") (Some "U7")
                             (Some "C042") (Some "1714560000.000100") in
  let lunch := Message.Make (Some "Let's grab lunch today") (Some "U8")
                            (Some "C042") (Some "1714560001.000200") in
  App.detect_and_track_issues [lunch; broken; lunch] "U1" pump_world
  = ([App.issue_data_of broken], pump_world).
Proof.
  intros broken lunch.
  exact (proj1 (detect_and_track_issues_spec [lunch; broken; lunch] "U1"
                  pump_world)).
Defined.

(** ** The stored issue across the methods *)

Lemma dict_lookup_set_eq {V : Type} (k : string) (v : V)
  (d : list (string * V)) :
  Dict.lookup k (Dict.set k v d) = Some v.
Proof.
  induction d as [|[k' v'] d IH]; simpl.
  - now rewrite String.eqb_refl.
  - destruct (String.eqb_spec k' k) as [-> | Hne]; simpl.
    + now rewrite String.eqb_refl.
    + destruct (String.eqb_spec k' k); [contradiction | exact IH].
Qed.

Lemma dict_lookup_set_ne {V : Type} (k k' : string) (v : V)
  (d : list (string * V)) :
  k' <> k -> Dict.lookup k (Dict.set k' v d) = Dict.lookup k d.
Proof.
  intros Hne. induction d as [|[k'' v''] d IH]; simpl.
  - destruct (String.eqb_spec k' k); [contradiction | reflexivity].
  - destruct (String.eqb_spec k'' k') as [-> | Hne']; simpl.
    + destruct (String.eqb_spec k' k); [contradiction | reflexivity].
    + destruct (String.eqb_spec k'' k); [reflexivity | exact IH].
Qed.

Section StoredIssue.
Variables (user_id issue_id : string).

Abbreviation stored s := (UserSettings.stored_issue s user_id issue_id).

Lemma stored_alter_issues (f : UserRecord.t -> UserRecord.t) (u : string)
  (s : Settings) :
  (forall r : UserRecord.t, UserRecord.issues (f r) = UserRecord.issues r) ->
  stored (alter f u s) = stored s.
Proof.
  intros Hf. unfold UserSettings.stored_issue.
  destruct (decide (u = user_id)) as [-> | Hne].
  - rewrite lookup_alter_eq. destruct (s !! user_id) as [r|]; simpl;
      [now rewrite Hf | reflexivity].
  - now rewrite lookup_alter_ne.
Qed.

Lemma stored_ensure_user (u : string) (s : Settings) :
  stored (UserSettings.ensure_user u s) = stored s.
Proof.
  unfold UserSettings.ensure_user.
  destruct (s !! u) as [r|] eqn:Hu; [reflexivity |].
  unfold UserSettings.stored_issue.
  destruct (decide (u = user_id)) as [-> | Hne].
  - now rewrite lookup_insert_eq, Hu.
  - now rewrite lookup_insert_ne.
Qed.

Lemma stored_ensure_issues (u : string) (s : Settings) :
  stored (UserSettings.ensure_issues u s) = stored s.
Proof.
  unfold UserSettings.ensure_issues, UserSettings.stored_issue.
  destruct (decide (u = user_id)) as [-> | Hne].
  - rewrite lookup_alter_eq. destruct (s !! user_id) as [r|]; simpl;
      [| reflexivity].
    destruct (UserRecord.issues r) eqn:Hr; [now rewrite Hr | reflexivity].
  - now rewrite lookup_alter_ne.
Qed.

Lemma stored_ensure_projects (u : string) (s : Settings) :
  stored (UserSettings.ensure_projects u s) = stored s.
Proof.
  apply stored_alter_issues. intros r. now destruct (UserRecord.projects r).
Qed.

Lemma stored_put_project (u n : string) (p : Project.t) (s : Settings) :
  stored (UserSettings.put_project u n p s) = stored s.
Proof. now apply stored_alter_issues. Qed.

Lemma stored_delete_other (u : string) (s : Settings) :
  u <> user_id -> stored (delete u s) = stored s.
Proof.
  intros Hne. unfold UserSettings.stored_issue. now rewrite lookup_delete_ne.
Qed.

Lemma stored_put_other_user (u i : string) (issue : Issue.t) (s : Settings) :
  u <> user_id -> stored (UserSettings.put_issue u i issue s) = stored s.
Proof.
  intros Hne. unfold UserSettings.stored_issue, UserSettings.put_issue.
  now rewrite lookup_alter_ne.
Qed.

Lemma stored_put_other_id (u i : string) (issue : Issue.t) (s : Settings) :
  i <> issue_id -> stored (UserSettings.put_issue u i issue s) = stored s.
Proof.
  intros Hne. destruct (decide (u = user_id)) as [-> | Hu];
    [| now apply stored_put_other_user].
  unfold UserSettings.stored_issue, UserSettings.put_issue.
  rewrite lookup_alter_eq. destruct (s !! user_id) as [r|]; simpl;
    [| reflexivity].
  rewrite dict_lookup_set_ne by exact Hne.
  now destruct (UserRecord.issues r).
Qed.

Lemma stored_put_same (issue : Issue.t) (s : Settings) :
  is_Some (s !! user_id) ->
  stored (UserSettings.put_issue user_id issue_id issue s) = Some issue.
Proof.
  intros [r Hr]. unfold UserSettings.stored_issue, UserSettings.put_issue.
  rewrite lookup_alter_eq, Hr. simpl. apply dict_lookup_set_eq.
Qed.

Lemma stored_is_user (s : Settings) (issue : Issue.t) :
  stored s = Some issue -> is_Some (s !! user_id).
Proof.
  unfold UserSettings.stored_issue.
  destruct (s !! user_id) as [r|]; [eauto | discriminate].
Qed.

End StoredIssue.

(** ** Running the methods *)

Section Monad.
Context {A B : Type}.

Lemma run_bind (m : M A) (f : A -> M B) (w : World) :
  (m ≫= f) w = f (fst (m w)) (snd (m w)).
Proof. unfold mbind, M_bind. now destruct (m w). Qed.

Lemma run_ret (a : A) (w : World) : (mret a : M A) w = (a, w).
Proof. reflexivity. Qed.

End Monad.

Lemma run_read (w : World) : read w = (settings w, w).
Proof. reflexivity. Qed.

Lemma settings_modify (f : Settings -> Settings) (w : World) :
  settings (snd (modify f w)) = f (settings w).
Proof. reflexivity. Qed.

Lemma ticks_modify (f : Settings -> Settings) (w : World) :
  ticks (snd (modify f w)) = ticks w.
Proof. reflexivity. Qed.

Lemma settings_now (clock : nat -> string) (w : World) :
  settings (snd (UserSettings.now clock w)) = settings w.
Proof. reflexivity. Qed.

Lemma ticks_now (clock : nat -> string) (w : World) :
  ticks (snd (UserSettings.now clock w)) = S (ticks w).
Proof. reflexivity. Qed.

Lemma fst_now (clock : nat -> string) (w : World) :
  fst (UserSettings.now clock w) = clock (ticks w).
Proof. reflexivity. Qed.

Lemma settings_now_reading (w : World) :
  settings (snd (UserSettings.now_reading w)) = settings w.
Proof. reflexivity. Qed.

Lemma settings_save (writable : nat -> bool) (w : World) :
  settings (snd (UserSettings._save_settings writable w)) = settings w.
Proof. reflexivity. Qed.

Lemma ticks_save (writable : nat -> bool) (w : World) :
  ticks (snd (UserSettings._save_settings writable w)) = ticks w.
Proof. reflexivity. Qed.

Ltac run_step :=
  first
    [ rewrite run_bind | rewrite run_ret | rewrite run_read
    | rewrite settings_modify | rewrite ticks_modify
    | rewrite settings_now | rewrite ticks_now | rewrite fst_now
    | rewrite settings_now_reading | rewrite settings_save
    | rewrite ticks_save ].

Ltac run_m := repeat (run_step; cbn beta iota delta [fst snd]).

Section StatusHistory.
Variable clock : nat -> string.
Variable writable : nat -> bool.
Variable updated_since : nat -> string -> bool.
Variables (user_id issue_id : string).

Abbreviation run c w := (run_call clock writable updated_since c w).
Abbreviation audited w := (audit (settings w) user_id issue_id).

Lemma targets_false (u i : string) :
  String.eqb u user_id && String.eqb i issue_id = false ->
  u <> user_id \/ i <> issue_id.
Proof.
  destruct (String.eqb_spec u user_id); [| now left].
  destruct (String.eqb_spec i issue_id); [discriminate | now right].
Qed.

Lemma audit_put_other (u i : string) (issue : Issue.t) (s : Settings) :
  u <> user_id \/ i <> issue_id ->
  audit (UserSettings.put_issue u i issue s) user_id issue_id
  = audit s user_id issue_id.
Proof.
  intros [Hu | Hi]; unfold audit.
  - now rewrite stored_put_other_user.
  - now rewrite stored_put_other_id.
Qed.

(** A call that is no status update of the issue, and that neither clears
    the user nor creates the issue again, keeps its status and history. *)
Lemma run_call_keeps (c : Call) (w : World) :
  ~ disturbs user_id issue_id c ->
  targets user_id issue_id c = false ->
  audited (snd (run c w)) = audited w.
Proof.
  intros Hsafe Hother.
  destruct c as [u p | u ks | u h | u | u n cs ks | u n cs | u n ks | u n
                | u n | u d | u i s by_ | u i m | u];
    cbn [run_call disturbs targets] in *.
  - unfold UserSettings.set_user_prompt. run_m. unfold audit.
    now rewrite stored_alter_issues, stored_ensure_user.
  - unfold UserSettings.set_user_keywords. run_m. unfold audit.
    now rewrite stored_alter_issues, stored_ensure_user.
  - unfold UserSettings.set_user_hours. run_m. unfold audit.
    now rewrite stored_alter_issues, stored_ensure_user.
  - unfold UserSettings.clear_user_settings. run_m.
    destruct (settings w !! u); run_m; [| reflexivity].
    unfold audit. now rewrite stored_delete_other.
  - unfold UserSettings.create_project. run_m. unfold audit.
    now rewrite stored_put_project, stored_ensure_projects,
      stored_ensure_user.
  - unfold UserSettings.update_project_channels. run_m.
    destruct (UserSettings.stored_project (settings w) u n); run_m;
      [| reflexivity].
    unfold audit. now rewrite stored_put_project.
  - unfold UserSettings.update_project_keywords. run_m.
    destruct (UserSettings.stored_project (settings w) u n); run_m;
      [| reflexivity].
    unfold audit. now rewrite stored_put_project.
  - unfold UserSettings.delete_project. run_m.
    destruct (UserSettings.stored_project (settings w) u n); run_m;
      [| reflexivity].
    unfold audit. now rewrite stored_alter_issues.
  - unfold UserSettings.toggle_project_status. run_m.
    destruct (UserSettings.stored_project (settings w) u n); run_m;
      [| reflexivity].
    unfold audit. now rewrite stored_put_project.
  - unfold UserSettings.create_issue. run_m.
    fold (issue_id_of d). rewrite audit_put_other.
    + unfold audit. now rewrite stored_ensure_issues, stored_ensure_user.
    + destruct (decide (u = user_id)) as [Hu | Hu]; [| now left].
      destruct (decide (issue_id_of d = issue_id)) as [Hi | Hi];
        [| now right].
      exfalso. apply Hsafe. now split.
  - unfold UserSettings.update_issue_status. run_m.
    destruct (UserSettings.stored_issue (settings w) u i); run_m;
      [| reflexivity].
    apply audit_put_other. now apply targets_false.
  - unfold UserSettings.add_related_message. run_m.
    destruct (UserSettings.stored_issue (settings w) u i) as [issue|] eqn:Hi;
      run_m; [| reflexivity].
    destruct (decide (u = user_id)) as [-> | Hu];
      [| apply audit_put_other; now left].
    destruct (decide (i = issue_id)) as [-> | Hid];
      [| apply audit_put_other; now right].
    unfold audit. rewrite stored_put_same, Hi; [reflexivity |].
    now apply stored_is_user with (issue_id := issue_id) (issue := issue).
  - unfold UserSettings.get_issue_statistics. now run_m.
Qed.

(** A status update of a stored issue returns [True], sets the status and
    appends one entry, which records the status before the call. *)
Lemma run_update (new_status : string) (updated_by : option string)
  (issue : Issue.t) (w : World) :
  UserSettings.stored_issue (settings w) user_id issue_id = Some issue ->
  let r := UserSettings.update_issue_status clock writable
             user_id issue_id new_status updated_by w in
  fst r = true
  /\ UserSettings.stored_issue (settings (snd r)) user_id issue_id
     = Some (Issue.append_history
               {| HistoryEntry.status := new_status;
                  HistoryEntry.timestamp := clock (S (ticks w));
                  HistoryEntry.user := str_or updated_by user_id;
                  HistoryEntry.previous_status := Some (Issue.status issue) |}
               (Issue.set_updated_at (clock (ticks w))
                  (Issue.set_status new_status issue))).
Proof.
  intros Hstored r. subst r. unfold UserSettings.update_issue_status.
  run_m. rewrite Hstored. run_m. split; [reflexivity |].
  apply stored_put_same.
  now apply stored_is_user with (issue_id := issue_id) (issue := issue).
Qed.

End StatusHistory.

Section RunsFacts.
Variable clock : nat -> string.
Variable writable : nat -> bool.
Variable updated_since : nat -> string -> bool.
Variables (user_id issue_id : string).

Lemma last_cons {A : Type} (x : A) (l : list A) (d : A) :
  List.last (x :: l) d = List.last l x.
Proof.
  revert x d. induction l as [|y l IH]; intros x d; [reflexivity |].
  change (List.last (x :: y :: l) d) with (List.last (y :: l) d).
  now rewrite !IH.
Qed.

Lemma run_calls_cons (c : Call) (cs : list Call) (w : World) :
  run_calls clock writable updated_since (c :: cs) w
  = (fst (run_call clock writable updated_since c w)
       :: fst (run_calls clock writable updated_since cs
                 (snd (run_call clock writable updated_since c w))),
     snd (run_calls clock writable updated_since cs
            (snd (run_call clock writable updated_since c w)))).
Proof. cbn [run_calls]. now run_m. Qed.

(** Over a run that does not disturb the issue, its history grows by one
    entry for each of its status updates, in the order of the calls; each
    update returns [True]; the transitions chain from the status at the
    start. *)
Lemma run_calls_history (cs : list Call) :
  forall (w : World) (status : string) (history : list HistoryEntry.t),
    Forall (fun c => ~ disturbs user_id issue_id c) cs ->
    audit (settings w) user_id issue_id = Some (status, history) ->
    let r := run_calls clock writable updated_since cs w in
    let updates := status_updates user_id issue_id cs in
    exists appended : list HistoryEntry.t,
      audit (settings (snd r)) user_id issue_id
      = Some (List.last (map fst updates) status,
              (history ++ appended)%list)
      /\ length appended = length updates
      /\ transitions appended = chain status (map fst updates)
      /\ map HistoryEntry.user appended
         = map (fun u => str_or (snd u) user_id) updates
      /\ Forall (eq (VBool true)) (update_results user_id issue_id cs (fst r)).
Proof.
  induction cs as [|c cs IH]; intros w status history Hsafe Haudit r updates.
  - exists []. subst r updates. cbn. rewrite app_nil_r.
    repeat split; [exact Haudit | constructor].
  - apply List.Forall_cons_iff in Hsafe. destruct Hsafe as [Hc Hcs].
    subst r. rewrite run_calls_cons. cbn [fst snd].
    destruct (targets user_id issue_id c) eqn:Htarget.
    + destruct c; try discriminate Htarget.
      cbn [targets] in Htarget. subst updates.
      cbn [status_updates update_results]. rewrite Htarget.
      apply andb_true_iff in Htarget. destruct Htarget as [Hu Hi].
      apply String.eqb_eq in Hu, Hi. subst user_id0 issue_id0.
      unfold audit in Haudit.
      destruct (UserSettings.stored_issue (settings w) user_id issue_id)
        as [issue|] eqn:Hstored; [| discriminate].
      injection Haudit as Hstatus Hhistory.
      destruct (run_update clock writable user_id issue_id
                  new_status updated_by issue w Hstored) as [Htrue Hafter].
      cbn [run_call]. run_m. rewrite Htrue.
      edestruct (IH (snd (UserSettings.update_issue_status clock writable
                            user_id issue_id new_status updated_by w))
                    new_status) as (appended & Ha & Hlen & Htrans & Husers & Hres);
        [exact Hcs | unfold audit; rewrite Hafter; reflexivity |].
      cbn [Issue.status_history Issue.append_history Issue.set_updated_at
             Issue.set_status] in Ha.
      exists ({| HistoryEntry.status := new_status;
                 HistoryEntry.timestamp := clock (S (ticks w));
                 HistoryEntry.user := str_or updated_by user_id;
                 HistoryEntry.previous_status := Some status |}
                :: appended).
      rewrite Ha.
      cbn [map fst snd length transitions chain HistoryEntry.status
             HistoryEntry.user HistoryEntry.previous_status].
      fold (transitions appended). rewrite Htrans, Husers, Hlen, Hstatus.
      rewrite <- Hhistory, <- app_assoc.
      rewrite last_cons.
      repeat split. constructor; [reflexivity | exact Hres].
    + pose proof (run_call_keeps clock writable updated_since
                    user_id issue_id c w Hc Htarget) as Hkeep.
      rewrite Haudit in Hkeep.
      destruct (IH _ status history Hcs Hkeep)
        as (appended & Ha & Hlen & Htrans & Husers & Hres).
      exists appended.
      assert (Hupd : status_updates user_id issue_id (c :: cs)
                     = status_updates user_id issue_id cs).
      { destruct c; try reflexivity. cbn [targets] in Htarget.
        cbn [status_updates]. now rewrite Htarget. }
      assert (Hresults :
                update_results user_id issue_id (c :: cs)
                  (fst (run_call clock writable updated_since c w)
                     :: fst (run_calls clock writable updated_since cs
                               (snd (run_call clock writable updated_since
                                       c w))))
                = update_results user_id issue_id cs
                    (fst (run_calls clock writable updated_since cs
                            (snd (run_call clock writable updated_since
                                    c w))))).
      { destruct c; try reflexivity. cbn [targets] in Htarget.
        cbn [update_results]. now rewrite Htarget. }
      subst updates. rewrite Hupd, Hresults. now repeat split.
Qed.

End RunsFacts.

Lemma update_results_length (clock : nat -> string) (writable : nat -> bool)
  (updated_since : nat -> string -> bool) (user_id issue_id : string)
  (cs : list Call) (w : World) :
  length (update_results user_id issue_id cs
            (fst (run_calls clock writable updated_since cs w)))
  = length (status_updates user_id issue_id cs).
Proof.
  revert w. induction cs as [|c cs IH]; intros w; [reflexivity |].
  rewrite run_calls_cons. cbn [fst].
  destruct c; cbn [update_results status_updates]; try apply IH.
  destruct (String.eqb user_id0 user_id && String.eqb issue_id0 issue_id);
    cbn [length]; now rewrite IH.
Qed.

Lemma create_issue_stored (clock : nat -> string) (writable : nat -> bool)
  (user_id : string) (issue_data : IssueData.t) (w : World) :
  let created := UserSettings.create_issue clock writable user_id issue_data w in
  fst created = issue_id_of issue_data
  /\ exists issue : Issue.t,
       UserSettings.stored_issue (settings (snd created)) user_id (fst created)
       = Some issue
       /\ Issue.status issue = get (IssueData.status issue_data) "open"
       /\ Issue.status_history issue
          = [ {| HistoryEntry.status := "open";
                 HistoryEntry.timestamp := clock (ticks w);
                 HistoryEntry.user := user_id;
                 HistoryEntry.previous_status := None |} ].
Proof.
  intros created. subst created. unfold UserSettings.create_issue.
  run_m. fold (issue_id_of issue_data). split; [reflexivity |].
  eexists. split.
  - apply stored_put_same.
    unfold UserSettings.ensure_issues, UserSettings.ensure_user.
    rewrite lookup_alter_eq.
    destruct (settings w !! user_id) as [r|] eqn:Hr.
    + rewrite Hr. eauto.
    + rewrite lookup_insert_eq. eauto.
  - split; reflexivity.
Qed.

(** C1, as amended.  [create_issue] stores, under the id it returns, an
    issue whose status is the status field of the candidate, "open" when
    the candidate has none, and whose history is the single entry with
    status "open" and the creating user.  From then on, over any calls of
    the methods that neither clear the user's settings nor create the same
    issue again: every status update of the issue returns [True]; the
    history keeps its entries and gains one entry per status update, so
    that after N updates it has N + 1 entries; the entries gained record,
    in the order of the calls, the transitions from the status before each
    call to the new status, starting from the stored status; each names
    the updating user.  In any state, a status update of a stored issue
    returns [True] and appends exactly one entry, whose previous status is
    the status before the call. *)
Theorem status_history_grows (clock : nat -> string) (writable : nat -> bool)
  (updated_since : nat -> string -> bool) (user_id : string)
  (issue_data : IssueData.t) (w : World) (calls : list Call) :
  let created := UserSettings.create_issue clock writable user_id issue_data w in
  let issue_id := fst created in
  Forall (fun c => ~ disturbs user_id issue_id c) calls ->
  let r := run_calls clock writable updated_since calls (snd created) in
  let updates := status_updates user_id issue_id calls in
  let results := update_results user_id issue_id calls (fst r) in
  (exists (issue1 issue2 : Issue.t) (appended : list HistoryEntry.t),
     UserSettings.get_issue (settings (snd created)) user_id issue_id
     = Some issue1
     /\ Issue.status issue1 = get (IssueData.status issue_data) "open"
     /\ Issue.status_history issue1
        = [ {| HistoryEntry.status := "open";
               HistoryEntry.timestamp := clock (ticks w);
               HistoryEntry.user := user_id;
               HistoryEntry.previous_status := None |} ]
     /\ length results = length updates
     /\ Forall (eq (VBool true)) results
     /\ UserSettings.get_issue (settings (snd r)) user_id issue_id = Some issue2
     /\ Issue.status issue2 = List.last (map fst updates) (Issue.status issue1)
     /\ Issue.status_history issue2
        = (Issue.status_history issue1 ++ appended)%list
     /\ length (Issue.status_history issue2) = (length updates + 1)%nat
     /\ transitions appended = chain (Issue.status issue1) (map fst updates)
     /\ map HistoryEntry.user appended
        = map (fun u => str_or (snd u) user_id) updates)
  /\ (forall (w0 : World) (any_id new_status : string)
        (updated_by : option string) (issue : Issue.t),
        UserSettings.get_issue (settings w0) user_id any_id = Some issue ->
        let u := UserSettings.update_issue_status clock writable
                   user_id any_id new_status updated_by w0 in
        fst u = true
        /\ exists issue' : Issue.t,
             UserSettings.get_issue (settings (snd u)) user_id any_id
             = Some issue'
             /\ Issue.status issue' = new_status
             /\ Issue.status_history issue'
                = (Issue.status_history issue
                   ++ [ {| HistoryEntry.status := new_status;
                           HistoryEntry.timestamp := clock (S (ticks w0));
                           HistoryEntry.user := str_or updated_by user_id;
                           HistoryEntry.previous_status :=
                             Some (Issue.status issue) |} ])%list).
Proof.
  intros created issue_id Hsafe r updates results. split.
  - destruct (create_issue_stored clock writable user_id issue_data w)
      as (_ & issue1 & Hstored1 & Hstatus1 & Hhistory1).
    fold created in Hstored1. fold issue_id in Hstored1.
    destruct (run_calls_history clock writable updated_since
                user_id issue_id calls (snd created) (Issue.status issue1)
                (Issue.status_history issue1) Hsafe)
      as (appended & Haudit & Hlen & Htrans & Husers & Hres).
    { unfold audit. now rewrite Hstored1. }
    fold r in Haudit, Hres. fold updates in Haudit, Hlen, Htrans, Husers.
    unfold audit in Haudit.
    destruct (UserSettings.stored_issue (settings (snd r)) user_id issue_id)
      as [issue2|] eqn:Hstored2; [| discriminate].
    injection Haudit as Hstatus2 Hhistory2.
    exists issue1, issue2, appended.
    rewrite !get_issue_stored.
    repeat split; try assumption.
    + apply update_results_length.
    + rewrite Hhistory2, length_app, Hhistory1, Hlen. simpl. lia.
  - intros w0 any_id new_status updated_by issue Hget u.
    rewrite get_issue_stored in Hget.
    destruct (run_update clock writable user_id any_id new_status
                updated_by issue w0 Hget) as [Htrue Hafter].
    fold u in Htrue, Hafter. split; [exact Htrue |].
    eexists. rewrite get_issue_stored. split; [exact Hafter |].
    split; reflexivity.
Qed.

Lemma status_history_grows_witness :
  exists issue : Issue.t,
    UserSettings.get_issue
      (settings (snd (run_calls clock0 always_writable all_recent pump_calls
                        pump_world))) "U1" pump_id = Some issue
    /\ length (Issue.status_history issue) = 3%nat
    /\ transitions (Issue.status_history issue)
       = [ (None, "open"); (Some "open", "investigating");
           (Some "investigating", "resolved") ].
Proof.
  destruct (status_history_grows clock0 always_writable all_recent "U1"
              pump_report (UserSettings.__init__ None) pump_calls)
    as ((issue1 & issue2 & appended & _ & Hstatus & Hseed & _ & _ & Hget
         & _ & Hhistory & Hlength & Htrans & _) & _).
  { unfold pump_calls.
    repeat (apply List.Forall_cons; [cbn [disturbs]; tauto |]).
    apply List.Forall_nil. }
  exists issue2. split; [exact Hget |].
  split; [rewrite Hlength; vm_compute; reflexivity |].
  rewrite Hhistory, Hseed. unfold transitions in *.
  rewrite map_app, Htrans, Hstatus. vm_compute. reflexivity.
Defined.

(** C1, as stated, fails for a candidate with a status field: the stored
    status is that field, while the history is seeded with "open". *)
Lemma create_issue_status_counterexample :
  let created :=
    UserSettings.create_issue clock0 always_writable "U12345TEST" second_bug
      (UserSettings.__init__ None) in
  exists issue : Issue.t,
    UserSettings.get_issue (settings (snd created)) "U12345TEST" (fst created)
    = Some issue
    /\ Issue.status issue = "resolved"
    /\ Issue.status issue <> "open"
    /\ map HistoryEntry.status (Issue.status_history issue) = ["open"].
Proof.
  eexists. split; [vm_compute; reflexivity |].
  split; [reflexivity |]. split; [discriminate | reflexivity].
Qed.

(** * Further properties *)

(** ** Records beside the issues *)

Lemma beside_issues_alter (f : UserRecord.t -> UserRecord.t)
  (u u' : string) (s : Settings) :
  (forall r : UserRecord.t, beside_issues (f r) = beside_issues r) ->
  beside_issues (UserSettings.get_user_settings (alter f u s) u')
  = beside_issues (UserSettings.get_user_settings s u').
Proof.
  intros Hf. unfold UserSettings.get_user_settings.
  destruct (decide (u = u')) as [-> | Hne].
  - rewrite lookup_alter_eq. destruct (s !! u') as [r|]; simpl;
      [apply Hf | reflexivity].
  - now rewrite lookup_alter_ne.
Qed.

Lemma beside_issues_ensure_user (u u' : string) (s : Settings) :
  UserSettings.get_user_settings (UserSettings.ensure_user u s) u'
  = UserSettings.get_user_settings s u'.
Proof.
  unfold UserSettings.ensure_user, UserSettings.get_user_settings.
  destruct (s !! u) as [r|] eqn:Hu; [reflexivity |].
  destruct (decide (u = u')) as [<- | Hne].
  - now rewrite lookup_insert_eq, Hu.
  - now rewrite lookup_insert_ne.
Qed.

Lemma beside_issues_ensure_issues (u u' : string) (s : Settings) :
  beside_issues
    (UserSettings.get_user_settings (UserSettings.ensure_issues u s) u')
  = beside_issues (UserSettings.get_user_settings s u').
Proof.
  apply beside_issues_alter. intros r. now destruct (UserRecord.issues r).
Qed.

Lemma beside_issues_put_issue (u i u' : string) (issue : Issue.t)
  (s : Settings) :
  beside_issues
    (UserSettings.get_user_settings (UserSettings.put_issue u i issue s) u')
  = beside_issues (UserSettings.get_user_settings s u').
Proof. now apply beside_issues_alter. Qed.

Lemma dict_keys_set {V : Type} (k : string) (v : V) (d : list (string * V)) :
  dict_keys (Dict.set k v d)
  = match Dict.lookup k d with
    | Some _ => dict_keys d
    | None => (dict_keys d ++ [k])%list
    end.
Proof.
  unfold dict_keys.
  induction d as [|[k' v'] d IH]; [reflexivity |]. cbn [Dict.set Dict.lookup].
  destruct (String.eqb_spec k' k) as [-> | Hne]; [reflexivity |].
  cbn [map fst]. rewrite IH. now destruct (Dict.lookup k d).
Qed.

Lemma user_issues_put (u i : string) (issue : Issue.t) (s : Settings) :
  is_Some (s !! u) ->
  UserSettings.get_user_issues (UserSettings.put_issue u i issue s) u None
  = Dict.set i issue (UserSettings.get_user_issues s u None).
Proof.
  intros [r Hr].
  unfold UserSettings.get_user_issues, UserSettings.get_user_settings,
    UserSettings.put_issue.
  now rewrite lookup_alter_eq, Hr.
Qed.

Lemma user_issues_ensure (u : string) (s : Settings) :
  UserSettings.get_user_issues
    (UserSettings.ensure_issues u (UserSettings.ensure_user u s)) u None
  = UserSettings.get_user_issues s u None
  /\ is_Some (UserSettings.ensure_issues u (UserSettings.ensure_user u s) !! u).
Proof.
  unfold UserSettings.get_user_issues, UserSettings.get_user_settings,
    UserSettings.ensure_issues, UserSettings.ensure_user.
  rewrite lookup_alter_eq.
  destruct (s !! u) as [r|] eqn:Hr.
  - rewrite Hr. simpl. split; [| eauto].
    destruct (UserRecord.issues r) eqn:Hi; simpl; [now rewrite Hi | easy].
  - rewrite lookup_insert_eq. simpl. split; [reflexivity | eauto].
Qed.

Section IssueStore.
Variable clock : nat -> string.
Variable writable : nat -> bool.

(** X1.  [create_issue] returns the fingerprint of the candidate and stores
    under it the record built from the candidate: the fields of the
    candidate, with the empty string, "open", "medium" and the empty list
    for those it lacks, no related message, and the three clock readings of
    the call.  Every other issue of every user, and the preferences and
    projects of every user, are as before. *)
Theorem create_issue_get (user_id : string) (issue_data : IssueData.t)
  (w : World) :
  let r := UserSettings.create_issue clock writable user_id issue_data w in
  let s' := settings (snd r) in
  fst r = issue_id_of issue_data
  /\ UserSettings.get_issue s' user_id (fst r)
     = Some
         {| Issue.id := fst r;
            Issue.title := get (IssueData.title issue_data) "";
            Issue.description := get (IssueData.description issue_data) "";
            Issue.original_text := get (IssueData.original_text issue_data) "";
            Issue.channel := get (IssueData.channel issue_data) "";
            Issue.reporter := get (IssueData.reporter issue_data) "";
            Issue.timestamp := get (IssueData.timestamp issue_data) "";
            Issue.message_ts := get (IssueData.message_ts issue_data) "";
            Issue.status := get (IssueData.status issue_data) "open";
            Issue.priority := get (IssueData.priority issue_data) "medium";
            Issue.tags := get (IssueData.tags issue_data) [];
            Issue.related_messages := [];
            Issue.status_history :=
              [ {| HistoryEntry.status := "open";
                   HistoryEntry.timestamp := clock (ticks w);
                   HistoryEntry.user := user_id;
                   HistoryEntry.previous_status := None |} ];
            Issue.created_at := clock (S (ticks w));
            Issue.updated_at := clock (S (S (ticks w))) |}
  /\ (forall u i : string,
        u <> user_id \/ i <> fst r ->
        UserSettings.get_issue s' u i
        = UserSettings.get_issue (settings w) u i)
  /\ (forall u : string,
        beside_issues (UserSettings.get_user_settings s' u)
        = beside_issues (UserSettings.get_user_settings (settings w) u)).
Proof.
  intros r s'. subst r s'. unfold UserSettings.create_issue. run_m.
  fold (issue_id_of issue_data).
  destruct (user_issues_ensure user_id (settings w)) as [_ Huser].
  split; [reflexivity |]. split; [| split].
  - rewrite get_issue_stored. now apply stored_put_same.
  - intros u i Hother. rewrite !get_issue_stored.
    transitivity
      (UserSettings.stored_issue
         (UserSettings.ensure_issues user_id
            (UserSettings.ensure_user user_id (settings w))) u i).
    + destruct Hother as [Hu | Hi].
      * apply stored_put_other_user. congruence.
      * apply stored_put_other_id. congruence.
    + now rewrite stored_ensure_issues, stored_ensure_user.
  - intros u. rewrite beside_issues_put_issue, beside_issues_ensure_issues.
    now rewrite beside_issues_ensure_user.
Qed.

(** X2.  [create_issue] on a fingerprint that the user already has replaces
    the record in its place, so that the issues keep their number and their
    order; on a new fingerprint it adds the record after the others. *)
Theorem create_issue_keys (user_id : string) (issue_data : IssueData.t)
  (w : World) :
  let r := UserSettings.create_issue clock writable user_id issue_data w in
  let before := UserSettings.get_user_issues (settings w) user_id None in
  let after := UserSettings.get_user_issues (settings (snd r)) user_id None in
  (exists issue : Issue.t,
     UserSettings.get_issue (settings (snd r)) user_id (fst r) = Some issue
     /\ after = Dict.set (fst r) issue before)
  /\ dict_keys after
     = match UserSettings.get_issue (settings w) user_id (fst r) with
       | Some _ => dict_keys before
       | None => (dict_keys before ++ [fst r])%list
       end.
Proof.
  intros r before after. subst r before after.
  unfold UserSettings.create_issue. run_m. fold (issue_id_of issue_data).
  destruct (user_issues_ensure user_id (settings w)) as [Hsame Huser].
  rewrite user_issues_put by exact Huser. rewrite Hsame. split.
  - eexists. split; [| reflexivity].
    rewrite get_issue_stored. now apply stored_put_same.
  - now rewrite dict_keys_set.
Qed.

Lemma dict_keys_set_present {V : Type} (k : string) (v v' : V)
  (d : list (string * V)) :
  Dict.lookup k d = Some v -> dict_keys (Dict.set k v' d) = dict_keys d.
Proof. intros H. now rewrite dict_keys_set, H. Qed.

Lemma stored_user_issues (s : Settings) (u i : string) (issue : Issue.t) :
  UserSettings.stored_issue s u i = Some issue ->
  Dict.lookup i (UserSettings.get_user_issues s u None) = Some issue.
Proof. intros H. rewrite <- get_issue_stored in H. exact H. Qed.

(** The frame of a write to one stored issue. *)
Lemma put_issue_frame (u i : string) (old new : Issue.t) (s : Settings) :
  UserSettings.stored_issue s u i = Some old ->
  let s' := UserSettings.put_issue u i new s in
  UserSettings.get_issue s' u i = Some new
  /\ (forall u' i' : string,
        u' <> u \/ i' <> i ->
        UserSettings.get_issue s' u' i' = UserSettings.get_issue s u' i')
  /\ dict_keys (UserSettings.get_user_issues s' u None)
     = dict_keys (UserSettings.get_user_issues s u None)
  /\ (forall u' : string,
        beside_issues (UserSettings.get_user_settings s' u')
        = beside_issues (UserSettings.get_user_settings s u')).
Proof.
  intros Hold s'. subst s'.
  assert (Huser : is_Some (s !! u))
    by (now apply stored_is_user with (issue_id := i) (issue := old)).
  split; [| split; [| split]].
  - rewrite get_issue_stored. now apply stored_put_same.
  - intros u' i' Hother. rewrite !get_issue_stored.
    destruct Hother as [Hu | Hi].
    + apply stored_put_other_user. congruence.
    + apply stored_put_other_id. congruence.
  - rewrite user_issues_put by exact Huser.
    apply dict_keys_set_present with (v := old).
    now apply stored_user_issues.
  - intros u'. apply beside_issues_put_issue.
Qed.

(** X3.  [add_related_message] on an issue that the user has returns
    [True]; it adds one message after the related messages of that issue,
    with the fields of [message_data] (the empty string for those it lacks)
    and the first clock reading of the call, and sets [updated_at] to the
    second reading.  Status, history and the other fields of the issue,
    the other issues, the order of the issues, and the preferences and
    projects of every user are as before. *)
Theorem add_related_message_stored (user_id issue_id : string)
  (message_data : MessageData.t) (issue : Issue.t) (w : World) :
  UserSettings.get_issue (settings w) user_id issue_id = Some issue ->
  let r := UserSettings.add_related_message clock writable
             user_id issue_id message_data w in
  let s' := settings (snd r) in
  fst r = true
  /\ UserSettings.get_issue s' user_id issue_id
     = Some
         {| Issue.id := Issue.id issue;
            Issue.title := Issue.title issue;
            Issue.description := Issue.description issue;
            Issue.original_text := Issue.original_text issue;
            Issue.channel := Issue.channel issue;
            Issue.reporter := Issue.reporter issue;
            Issue.timestamp := Issue.timestamp issue;
            Issue.message_ts := Issue.message_ts issue;
            Issue.status := Issue.status issue;
            Issue.priority := Issue.priority issue;
            Issue.tags := Issue.tags issue;
            Issue.related_messages :=
              (Issue.related_messages issue
               ++ [ {| RelatedMessage.text :=
                         get (MessageData.text message_data) "";
                       RelatedMessage.user :=
                         get (MessageData.user message_data) "";
                       RelatedMessage.channel :=
                         get (MessageData.channel message_data) "";
                       RelatedMessage.timestamp :=
                         get (MessageData.timestamp message_data) "";
                       RelatedMessage.message_ts :=
                         get (MessageData.message_ts message_data) "";
                       RelatedMessage.added_at := clock (ticks w) |} ])%list;
            Issue.status_history := Issue.status_history issue;
            Issue.created_at := Issue.created_at issue;
            Issue.updated_at := clock (S (ticks w)) |}
  /\ (forall u i : string,
        u <> user_id \/ i <> issue_id ->
        UserSettings.get_issue s' u i
        = UserSettings.get_issue (settings w) u i)
  /\ dict_keys (UserSettings.get_user_issues s' user_id None)
     = dict_keys (UserSettings.get_user_issues (settings w) user_id None)
  /\ (forall u : string,
        beside_issues (UserSettings.get_user_settings s' u)
        = beside_issues (UserSettings.get_user_settings (settings w) u)).
Proof.
  intros Hget r s'. subst r s'. rewrite get_issue_stored in Hget.
  unfold UserSettings.add_related_message. run_m. rewrite Hget. run_m.
  split; [reflexivity |].
  now apply put_issue_frame with (old := issue).
Qed.

(** X4.  [update_issue_status] on an issue that the user has changes, of
    that issue, the status, [updated_at] (the first clock reading of the
    call) and the history, to which it adds one entry with the second
    reading; the entry names [updated_by], or the user when [updated_by] is
    [None] or empty.  The other fields of the issue, the other issues, the
    order of the issues, and the preferences and projects of every user
    are as before. *)
Theorem update_issue_status_stored (user_id issue_id new_status : string)
  (updated_by : option string) (issue : Issue.t) (w : World) :
  UserSettings.get_issue (settings w) user_id issue_id = Some issue ->
  let r := UserSettings.update_issue_status clock writable
             user_id issue_id new_status updated_by w in
  let s' := settings (snd r) in
  UserSettings.get_issue s' user_id issue_id
  = Some
      {| Issue.id := Issue.id issue;
         Issue.title := Issue.title issue;
         Issue.description := Issue.description issue;
         Issue.original_text := Issue.original_text issue;
         Issue.channel := Issue.channel issue;
         Issue.reporter := Issue.reporter issue;
         Issue.timestamp := Issue.timestamp issue;
         Issue.message_ts := Issue.message_ts issue;
         Issue.status := new_status;
         Issue.priority := Issue.priority issue;
         Issue.tags := Issue.tags issue;
         Issue.related_messages := Issue.related_messages issue;
         Issue.status_history :=
           (Issue.status_history issue
            ++ [ {| HistoryEntry.status := new_status;
                    HistoryEntry.timestamp := clock (S (ticks w));
                    HistoryEntry.user :=
                      match updated_by with
                      | None | Some "" => user_id
                      | Some name => name
                      end;
                    HistoryEntry.previous_status :=
                      Some (Issue.status issue) |} ])%list;
         Issue.created_at := Issue.created_at issue;
         Issue.updated_at := clock (ticks w) |}
  /\ (forall u i : string,
        u <> user_id \/ i <> issue_id ->
        UserSettings.get_issue s' u i
        = UserSettings.get_issue (settings w) u i)
  /\ dict_keys (UserSettings.get_user_issues s' user_id None)
     = dict_keys (UserSettings.get_user_issues (settings w) user_id None)
  /\ (forall u : string,
        beside_issues (UserSettings.get_user_settings s' u)
        = beside_issues (UserSettings.get_user_settings (settings w) u)).
Proof.
  intros Hget r s'. subst r s'. rewrite get_issue_stored in Hget.
  unfold UserSettings.update_issue_status. run_m. rewrite Hget. run_m.
  pose proof (put_issue_frame user_id issue_id issue
                (Issue.append_history
                   {| HistoryEntry.status := new_status;
                      HistoryEntry.timestamp := clock (S (ticks w));
                      HistoryEntry.user := str_or updated_by user_id;
                      HistoryEntry.previous_status :=
                        Some (Issue.status issue) |}
                   (Issue.set_updated_at (clock (ticks w))
                      (Issue.set_status new_status issue)))
                (settings w) Hget) as (Hnew & Hrest).
  split; [| exact Hrest].
  rewrite Hnew. destruct updated_by as [[|c name]|]; reflexivity.
Qed.

Lemma dict_lookup_filter {V : Type} (p : string * V -> bool) (k : string)
  (v : V) (d : list (string * V)) :
  Dict.lookup k d = Some v -> p (k, v) = true ->
  Dict.lookup k (List.filter p d) = Some v.
Proof.
  intros Hlookup Hp. induction d as [|[k' v'] d IH]; [discriminate |].
  cbn [Dict.lookup List.filter] in *.
  destruct (String.eqb_spec k' k) as [-> | Hne].
  - injection Hlookup as ->. rewrite Hp. cbn [Dict.lookup].
    now rewrite String.eqb_refl.
  - destruct (p (k', v')); [| now apply IH].
    cbn [Dict.lookup]. destruct (String.eqb_spec k' k); [contradiction |].
    now apply IH.
Qed.

(** X5.  With a status that is not empty, [get_user_issues] lists, in the
    stored order, exactly the issues of the user with that status; with
    [None] or the empty status it lists them all.  After a status update
    that returns [True], the issue is listed under its new status. *)
Theorem get_user_issues_filter (user_id status : string) (w : World) :
  status <> "" ->
  let all := UserSettings.get_user_issues (settings w) user_id None in
  UserSettings.get_user_issues (settings w) user_id (Some status)
  = List.filter (fun kv => String.eqb (Issue.status (snd kv)) status) all
  /\ (forall (i : string) (issue : Issue.t),
        In (i, issue)
           (UserSettings.get_user_issues (settings w) user_id (Some status))
        <-> In (i, issue) all /\ Issue.status issue = status)
  /\ UserSettings.get_user_issues (settings w) user_id (Some "") = all
  /\ (forall (issue_id : string) (updated_by : option string),
        let r := UserSettings.update_issue_status clock writable
                   user_id issue_id status updated_by w in
        fst r = true ->
        exists issue : Issue.t,
          UserSettings.get_issue (settings (snd r)) user_id issue_id
          = Some issue
          /\ Dict.lookup issue_id
               (UserSettings.get_user_issues (settings (snd r)) user_id
                  (Some status))
             = Some issue).
Proof.
  intros Hstatus all.
  assert (Hfilter :
            UserSettings.get_user_issues (settings w) user_id (Some status)
            = List.filter
                (fun kv => String.eqb (Issue.status (snd kv)) status) all).
  { unfold UserSettings.get_user_issues.
    destruct status; [contradiction | reflexivity]. }
  split; [exact Hfilter |]. split; [| split; [reflexivity |]].
  - intros i issue. rewrite Hfilter, filter_In. cbn [snd].
    now rewrite String.eqb_eq.
  - intros issue_id updated_by r Htrue. subst r.
    destruct (UserSettings.stored_issue (settings w) user_id issue_id)
      as [old|] eqn:Hold.
    + destruct (run_update clock writable user_id issue_id status
                  updated_by old w Hold) as (_ & Hnew).
      rewrite <- get_issue_stored in Hnew.
      eexists. split; [exact Hnew |].
      assert (Hfilter' :
                forall s : Settings,
                  UserSettings.get_user_issues s user_id (Some status)
                  = List.filter
                      (fun kv => String.eqb (Issue.status (snd kv)) status)
                      (UserSettings.get_user_issues s user_id None)).
      { intros s. unfold UserSettings.get_user_issues.
        destruct status; [contradiction | reflexivity]. }
      rewrite Hfilter'. apply dict_lookup_filter; [exact Hnew |].
      cbn [snd Issue.status Issue.append_history Issue.set_updated_at
             Issue.set_status].
      apply String.eqb_refl.
    + unfold UserSettings.update_issue_status in Htrue.
      rewrite run_bind, run_read in Htrue. cbn [fst snd] in Htrue.
      rewrite Hold in Htrue. discriminate.
Qed.

End IssueStore.

Lemma add_related_message_stored_witness :
  UserSettings.get_issue (settings pump_world) "U1" pump_id = Some pump_issue
  /\ fst (UserSettings.add_related_message clock0 always_writable
            "U1" pump_id same_here pump_world) = true.
Proof.
  assert (Hget : UserSettings.get_issue (settings pump_world) "U1" pump_id
                 = Some pump_issue) by (vm_compute; reflexivity).
  split; [exact Hget |].
  exact (proj1 (add_related_message_stored clock0 always_writable
                  "U1" pump_id same_here pump_issue pump_world Hget)).
Defined.

Lemma update_issue_status_stored_witness :
  UserSettings.get_issue (settings pump_world) "U1" pump_id = Some pump_issue
  /\ dict_keys
       (UserSettings.get_user_issues
          (settings
             (snd (UserSettings.update_issue_status clock0 always_writable
                     "U1" pump_id "investigating" None pump_world)))
          "U1" None)
     = dict_keys (UserSettings.get_user_issues (settings pump_world) "U1" None).
Proof.
  assert (Hget : UserSettings.get_issue (settings pump_world) "U1" pump_id
                 = Some pump_issue) by (vm_compute; reflexivity).
  split; [exact Hget |].
  exact (proj1 (proj2 (proj2
           (update_issue_status_stored clock0 always_writable
              "U1" pump_id "investigating" None pump_issue pump_world
              Hget)))).
Defined.

Lemma get_user_issues_filter_witness :
  "open" <> ""
  /\ UserSettings.get_user_issues (settings pump_world) "U1" (Some "open")
     = List.filter (fun kv => String.eqb (Issue.status (snd kv)) "open")
         (UserSettings.get_user_issues (settings pump_world) "U1" None).
Proof.
  assert (Hstatus : "open" <> "") by discriminate.
  split; [exact Hstatus |].
  exact (proj1 (get_user_issues_filter clock0 always_writable
                  "U1" "open" pump_world Hstatus)).
Defined.

(** ** Projects *)

Lemma user_settings_alter_other (f : UserRecord.t -> UserRecord.t)
  (u u' : string) (s : Settings) :
  u <> u' ->
  UserSettings.get_user_settings (alter f u s) u'
  = UserSettings.get_user_settings s u'.
Proof.
  intros Hne. unfold UserSettings.get_user_settings.
  now rewrite lookup_alter_ne.
Qed.

Lemma beside_projects_alter (f : UserRecord.t -> UserRecord.t)
  (u u' : string) (s : Settings) :
  (forall r : UserRecord.t, beside_projects (f r) = beside_projects r) ->
  beside_projects (UserSettings.get_user_settings (alter f u s) u')
  = beside_projects (UserSettings.get_user_settings s u').
Proof.
  intros Hf. unfold UserSettings.get_user_settings.
  destruct (decide (u = u')) as [-> | Hne].
  - rewrite lookup_alter_eq. destruct (s !! u') as [r|]; simpl;
      [apply Hf | reflexivity].
  - now rewrite lookup_alter_ne.
Qed.

Lemma user_projects_alter (g : gmap string Project.t -> gmap string Project.t)
  (u : string) (s : Settings) :
  is_Some (s !! u) ->
  UserSettings.get_user_projects
    (alter (fun r => UserRecord.set_projects
                       (g (get (UserRecord.projects r) ∅)) r) u s) u
  = g (UserSettings.get_user_projects s u).
Proof.
  intros [r Hr].
  unfold UserSettings.get_user_projects, UserSettings.get_user_settings.
  now rewrite lookup_alter_eq, Hr.
Qed.

Lemma user_projects_other (f : UserRecord.t -> UserRecord.t)
  (u u' : string) (s : Settings) :
  u <> u' ->
  UserSettings.get_user_projects (alter f u s) u'
  = UserSettings.get_user_projects s u'.
Proof.
  intros Hne. unfold UserSettings.get_user_projects.
  now rewrite user_settings_alter_other.
Qed.

Lemma stored_project_user (s : Settings) (u n : string) (p : Project.t) :
  UserSettings.stored_project s u n = Some p -> is_Some (s !! u).
Proof.
  unfold UserSettings.stored_project.
  destruct (s !! u) as [r|]; [eauto | discriminate].
Qed.

Lemma beside_projects_ensure_projects (u u' : string) (s : Settings) :
  beside_projects
    (UserSettings.get_user_settings (UserSettings.ensure_projects u s) u')
  = beside_projects (UserSettings.get_user_settings s u').
Proof.
  apply beside_projects_alter. intros r. now destruct (UserRecord.projects r).
Qed.

Lemma user_projects_ensure (u : string) (s : Settings) :
  UserSettings.get_user_projects
    (UserSettings.ensure_projects u (UserSettings.ensure_user u s)) u
  = UserSettings.get_user_projects s u
  /\ is_Some
       (UserSettings.ensure_projects u (UserSettings.ensure_user u s) !! u).
Proof.
  unfold UserSettings.get_user_projects, UserSettings.get_user_settings,
    UserSettings.ensure_projects, UserSettings.ensure_user.
  rewrite lookup_alter_eq.
  destruct (s !! u) as [r|] eqn:Hr.
  - rewrite Hr. simpl. split; [| eauto].
    destruct (UserRecord.projects r) eqn:Hp; simpl; [now rewrite Hp | easy].
  - rewrite lookup_insert_eq. simpl. split; [reflexivity | eauto].
Qed.

Lemma put_project_restore (u n : string) (p p1 : Project.t) (s : Settings) :
  UserSettings.stored_project s u n = Some p ->
  UserSettings.put_project u n p (UserSettings.put_project u n p1 s) = s.
Proof.
  intros Hp. apply map_eq. intros u'. unfold UserSettings.put_project.
  unfold UserSettings.stored_project in Hp.
  destruct (decide (u = u')) as [<- | Hne];
    [| now rewrite !lookup_alter_ne].
  rewrite !lookup_alter_eq. destruct (s !! u) as [r|]; [| discriminate].
  simpl. f_equal. destruct r as [cp kw dh ps iss]. simpl in *.
  destruct ps as [ps|]; [| discriminate].
  unfold UserRecord.set_projects. simpl.
  now rewrite insert_insert_eq, insert_id.
Qed.

Section Projects.
Variable clock : nat -> string.
Variable writable : nat -> bool.

(** X6.  [create_project] stores under the name a project with the given
    channels, the given keywords (none when they are [None]), the clock
    reading of the call and [active = True], in place of a project that had
    the name; the user's other projects, the projects of the other users,
    and the preferences and issues of every user are as before. *)
Theorem create_project_get (user_id project_name : string)
  (channels : list string) (keywords : option (list string)) (w : World) :
  let r := UserSettings.create_project clock writable
             user_id project_name channels keywords w in
  let s' := settings (snd r) in
  let p := Project.Make channels (get keywords []) (clock (ticks w)) true in
  UserSettings.get_project s' user_id project_name = Some p
  /\ UserSettings.get_user_projects s' user_id
     = <[project_name := p]>
         (UserSettings.get_user_projects (settings w) user_id)
  /\ (forall n : string,
        n <> project_name ->
        UserSettings.get_project s' user_id n
        = UserSettings.get_project (settings w) user_id n)
  /\ (forall u : string,
        u <> user_id ->
        UserSettings.get_user_projects s' u
        = UserSettings.get_user_projects (settings w) u)
  /\ (forall u : string,
        beside_projects (UserSettings.get_user_settings s' u)
        = beside_projects (UserSettings.get_user_settings (settings w) u)).
Proof.
  intros r s' p. subst r s'. unfold UserSettings.create_project. run_m.
  fold p. destruct (user_projects_ensure user_id (settings w))
    as [Hsame Huser].
  assert (Hall :
            UserSettings.get_user_projects
              (UserSettings.put_project user_id project_name p
                 (UserSettings.ensure_projects user_id
                    (UserSettings.ensure_user user_id (settings w)))) user_id
            = <[project_name := p]>
                (UserSettings.get_user_projects (settings w) user_id)).
  { unfold UserSettings.put_project.
    rewrite (user_projects_alter (fun ps => <[project_name := p]> ps))
      by exact Huser.
    now rewrite Hsame. }
  split; [| split; [exact Hall | split; [| split]]].
  - unfold UserSettings.get_project. rewrite Hall. apply lookup_insert_eq.
  - intros n Hn. unfold UserSettings.get_project. rewrite Hall.
    now apply lookup_insert_ne.
  - intros u Hu. unfold UserSettings.put_project, UserSettings.ensure_projects.
    rewrite !user_projects_other by congruence.
    unfold UserSettings.get_user_projects.
    now rewrite beside_issues_ensure_user.
  - intros u. unfold UserSettings.put_project.
    rewrite beside_projects_alter by reflexivity.
    rewrite beside_projects_ensure_projects.
    now rewrite beside_issues_ensure_user.
Qed.

Lemma toggle_run (user_id project_name : string) (p : Project.t)
  (w : World) :
  UserSettings.stored_project (settings w) user_id project_name = Some p ->
  let r := UserSettings.toggle_project_status writable
             user_id project_name w in
  fst r = Some (negb (Project.active p))
  /\ settings (snd r)
     = UserSettings.put_project user_id project_name
         (Project.set_active (negb (Project.active p)) p) (settings w).
Proof.
  intros Hp r. subst r. unfold UserSettings.toggle_project_status. run_m.
  rewrite Hp. run_m. now split.
Qed.

(** X7.  Two calls of [toggle_project_status] on a project that the user
    has return the negation of its flag and then the flag, and leave the
    settings exactly as they were before the first call. *)
Theorem toggle_project_status_twice (user_id project_name : string)
  (p : Project.t) (w : World) :
  UserSettings.get_project (settings w) user_id project_name = Some p ->
  let r1 := UserSettings.toggle_project_status writable
              user_id project_name w in
  let r2 := UserSettings.toggle_project_status writable
              user_id project_name (snd r1) in
  fst r1 = Some (negb (Project.active p))
  /\ fst r2 = Some (Project.active p)
  /\ settings (snd r2) = settings w.
Proof.
  intros Hget r1 r2. rewrite get_project_stored in Hget.
  destruct (toggle_run user_id project_name p w Hget) as [Hfst1 Hsnd1].
  fold r1 in Hfst1, Hsnd1.
  assert (Hflip :
            UserSettings.stored_project (settings (snd r1))
              user_id project_name
            = Some (Project.set_active (negb (Project.active p)) p)).
  { rewrite Hsnd1. now apply stored_project_put with (p0 := p). }
  destruct (toggle_run user_id project_name _ (snd r1) Hflip)
    as [Hfst2 Hsnd2].
  fold r2 in Hfst2, Hsnd2.
  cbn [Project.active Project.set_active] in Hfst2, Hsnd2.
  rewrite negb_involutive in Hfst2, Hsnd2.
  split; [exact Hfst1 |]. split; [exact Hfst2 |].
  rewrite Hsnd2, Hsnd1.
  replace (Project.set_active (Project.active p)
             (Project.set_active (negb (Project.active p)) p)) with p
    by (now destruct p).
  now apply put_project_restore.
Qed.

(** X8.  [delete_project] removes a project that the user has: afterwards
    the name is absent, and the user's other projects, the projects of the
    other users and the preferences and issues of every user are as
    before.  For a name that the user does not have it changes nothing and
    writes nothing. *)
Theorem delete_project_get (user_id project_name : string) (w : World) :
  let r := UserSettings.delete_project writable user_id project_name w in
  let s' := settings (snd r) in
  (UserSettings.get_project (settings w) user_id project_name = None ->
   r = (tt, w))
  /\ UserSettings.get_project s' user_id project_name = None
  /\ UserSettings.get_user_projects s' user_id
     = delete project_name (UserSettings.get_user_projects (settings w) user_id)
  /\ (forall u : string,
        u <> user_id ->
        UserSettings.get_user_projects s' u
        = UserSettings.get_user_projects (settings w) u)
  /\ (forall u : string,
        beside_projects (UserSettings.get_user_settings s' u)
        = beside_projects (UserSettings.get_user_settings (settings w) u)).
Proof.
  intros r s'. subst r s'. unfold UserSettings.delete_project. run_m.
  destruct (UserSettings.stored_project (settings w) user_id project_name)
    as [p|] eqn:Hp; run_m.
  - assert (Hall :
              UserSettings.get_user_projects
                (alter (fun u => UserRecord.set_projects
                                   (delete project_name
                                      (get (UserRecord.projects u) ∅)) u)
                       user_id (settings w)) user_id
              = delete project_name
                  (UserSettings.get_user_projects (settings w) user_id)).
    { apply (user_projects_alter (fun ps => delete project_name ps)).
      now apply stored_project_user with (n := project_name) (p := p). }
    split; [rewrite get_project_stored, Hp; discriminate |].
    split; [unfold UserSettings.get_project; rewrite Hall;
            apply lookup_delete_eq |].
    split; [exact Hall |]. split.
    + intros u Hu. apply user_projects_other. congruence.
    + intros u. now apply beside_projects_alter.
  - rewrite <- get_project_stored in Hp.
    split; [reflexivity |]. split; [exact Hp |].
    split; [| split; reflexivity].
    symmetry. apply delete_id. exact Hp.
Qed.

(** X9.  [update_project_channels] and [update_project_keywords] on a
    project that the user has replace its channels, or its keywords, and
    keep its other fields; for a name that the user does not have they
    change nothing, write nothing and create no project. *)
Theorem update_project_fields (user_id project_name : string)
  (values : list string) (w : World) :
  let rc := UserSettings.update_project_channels writable
              user_id project_name values w in
  let rk := UserSettings.update_project_keywords writable
              user_id project_name values w in
  (UserSettings.get_project (settings w) user_id project_name = None ->
   rc = (tt, w) /\ rk = (tt, w))
  /\ (forall p : Project.t,
        UserSettings.get_project (settings w) user_id project_name = Some p ->
        UserSettings.get_project (settings (snd rc)) user_id project_name
        = Some (Project.Make values (Project.keywords p)
                             (Project.created_at p) (Project.active p))
        /\ UserSettings.get_project (settings (snd rk)) user_id project_name
           = Some (Project.Make (Project.channels p) values
                                (Project.created_at p) (Project.active p))).
Proof.
  intros rc rk. subst rc rk.
  unfold UserSettings.update_project_channels,
    UserSettings.update_project_keywords.
  run_m. rewrite get_project_stored. split.
  - intros Habsent. rewrite Habsent. now run_m.
  - intros p Hp. rewrite Hp. run_m. rewrite !get_project_stored.
    split; now apply stored_project_put with (p0 := p).
Qed.

End Projects.

Lemma toggle_project_status_twice_witness :
  UserSettings.get_project (settings rover_world) "U1" "rover"
  = Some rover_project
  /\ fst (UserSettings.toggle_project_status always_writable
            "U1" "rover" rover_world) = Some false.
Proof.
  assert (Hget : UserSettings.get_project (settings rover_world) "U1" "rover"
                 = Some rover_project) by (vm_compute; reflexivity).
  split; [exact Hget |].
  exact (proj1 (toggle_project_status_twice always_writable
                  "U1" "rover" rover_project rover_world Hget)).
Defined.

(** ** Preferences *)

Lemma user_settings_set (f : UserRecord.t -> UserRecord.t) (u : string)
  (s : Settings) :
  UserSettings.get_user_settings (alter f u (UserSettings.ensure_user u s)) u
  = f (UserSettings.get_user_settings s u).
Proof.
  unfold UserSettings.get_user_settings, UserSettings.ensure_user.
  rewrite lookup_alter_eq. destruct (s !! u) as [r|] eqn:Hr.
  - now rewrite Hr.
  - now rewrite lookup_insert_eq.
Qed.

Lemma user_settings_set_other (f : UserRecord.t -> UserRecord.t)
  (u u' : string) (s : Settings) :
  u <> u' ->
  UserSettings.get_user_settings (alter f u (UserSettings.ensure_user u s)) u'
  = UserSettings.get_user_settings s u'.
Proof.
  intros Hne. rewrite user_settings_alter_other by exact Hne.
  apply beside_issues_ensure_user.
Qed.

Section Preferences.
Variable writable : nat -> bool.

(** X10.  What [set_user_prompt], [set_user_keywords] and [set_user_hours]
    store is what [get_user_prompt], [get_user_keywords] and
    [get_user_hours] return afterwards, also for a user who had no
    settings; each of the three leaves the user's other preferences,
    projects and issues, and all settings of the other users, as they
    were. *)
Theorem user_preferences_roundtrip (user_id custom_prompt : string)
  (keywords : list string) (hours : Z) (w : World) :
  let s := settings w in
  let sp := settings (snd (UserSettings.set_user_prompt writable
                             user_id custom_prompt w)) in
  let sk := settings (snd (UserSettings.set_user_keywords writable
                             user_id keywords w)) in
  let sh := settings (snd (UserSettings.set_user_hours writable
                             user_id hours w)) in
  (UserSettings.get_user_prompt sp user_id = Some custom_prompt
   /\ UserSettings.get_user_keywords sp user_id
      = UserSettings.get_user_keywords s user_id
   /\ UserSettings.get_user_hours sp user_id
      = UserSettings.get_user_hours s user_id)
  /\ (UserSettings.get_user_keywords sk user_id = Some keywords
      /\ UserSettings.get_user_prompt sk user_id
         = UserSettings.get_user_prompt s user_id
      /\ UserSettings.get_user_hours sk user_id
         = UserSettings.get_user_hours s user_id)
  /\ (UserSettings.get_user_hours sh user_id = hours
      /\ UserSettings.get_user_prompt sh user_id
         = UserSettings.get_user_prompt s user_id
      /\ UserSettings.get_user_keywords sh user_id
         = UserSettings.get_user_keywords s user_id)
  /\ (forall s' : Settings,
        s' = sp \/ s' = sk \/ s' = sh ->
        UserSettings.get_user_projects s' user_id
        = UserSettings.get_user_projects s user_id
        /\ (forall status : option string,
              UserSettings.get_user_issues s' user_id status
              = UserSettings.get_user_issues s user_id status)
        /\ (forall u : string,
              u <> user_id ->
              UserSettings.get_user_settings s' u
              = UserSettings.get_user_settings s u)).
Proof.
  intros s sp sk sh. subst s sp sk sh.
  unfold UserSettings.set_user_prompt, UserSettings.set_user_keywords,
    UserSettings.set_user_hours.
  run_m.
  unfold UserSettings.get_user_prompt, UserSettings.get_user_keywords,
    UserSettings.get_user_hours, UserSettings.get_user_projects,
    UserSettings.get_user_issues.
  rewrite !user_settings_set.
  split; [now repeat split |]. split; [now repeat split |].
  split; [now repeat split |].
  intros s' Hs'.
  assert (Hset : exists f : UserRecord.t -> UserRecord.t,
            s' = alter f user_id
                   (UserSettings.ensure_user user_id (settings w))
            /\ forall r : UserRecord.t,
                 UserRecord.projects (f r) = UserRecord.projects r
                 /\ UserRecord.issues (f r) = UserRecord.issues r).
  { destruct Hs' as [-> | [-> | ->]]; eexists; split; try reflexivity;
      now intros r. }
  destruct Hset as (f & -> & Hf).
  rewrite user_settings_set.
  destruct (Hf (UserSettings.get_user_settings (settings w) user_id))
    as [Hprojects Hissues].
  rewrite Hprojects, Hissues.
  split; [reflexivity |]. split; [reflexivity |].
  intros u Hu. apply user_settings_set_other. congruence.
Qed.

(** X11.  After [clear_user_settings] the user reads as one who never had
    settings: no prompt, no keywords, 24 hours, no project and no issue;
    the settings of the other users are as before.  For a user without
    settings the call changes nothing and writes nothing. *)
Theorem clear_user_settings_defaults (user_id : string) (w : World) :
  let r := UserSettings.clear_user_settings writable user_id w in
  let s' := settings (snd r) in
  s' = delete user_id (settings w)
  /\ (settings w !! user_id = None -> r = (tt, w))
  /\ UserSettings.get_user_prompt s' user_id = None
  /\ UserSettings.get_user_keywords s' user_id = None
  /\ UserSettings.get_user_hours s' user_id = 24%Z
  /\ UserSettings.get_user_projects s' user_id = ∅
  /\ (forall status : option string,
        UserSettings.get_user_issues s' user_id status = [])
  /\ (forall u : string, u <> user_id -> s' !! u = settings w !! u).
Proof.
  intros r s'.
  assert (Hs : s' = delete user_id (settings w)).
  { subst r s'. unfold UserSettings.clear_user_settings. run_m.
    destruct (settings w !! user_id) eqn:Hu; run_m; [reflexivity |].
    symmetry. now apply delete_id. }
  split; [exact Hs |]. split.
  { intros Hu. subst r. unfold UserSettings.clear_user_settings. run_m.
    now rewrite Hu. }
  rewrite Hs.
  unfold UserSettings.get_user_prompt, UserSettings.get_user_keywords,
    UserSettings.get_user_hours, UserSettings.get_user_projects,
    UserSettings.get_user_issues, UserSettings.get_user_settings.
  rewrite lookup_delete_eq. cbn [get UserRecord.custom_prompt
    UserRecord.keywords UserRecord.default_hours UserRecord.projects
    UserRecord.issues UserRecord.empty].
  repeat split.
  - intros [[|c status]|]; reflexivity.
  - intros u Hu. apply lookup_delete_ne. congruence.
Qed.

End Preferences.

(** ** The settings file *)

Lemma file_modify (f : Settings -> Settings) (w : World) :
  file (snd (modify f w)) = file w.
Proof. reflexivity. Qed.

Lemma writes_modify (f : Settings -> Settings) (w : World) :
  writes (snd (modify f w)) = writes w.
Proof. reflexivity. Qed.

Lemma file_now (clock : nat -> string) (w : World) :
  file (snd (UserSettings.now clock w)) = file w.
Proof. reflexivity. Qed.

Lemma writes_now (clock : nat -> string) (w : World) :
  writes (snd (UserSettings.now clock w)) = writes w.
Proof. reflexivity. Qed.

Lemma file_now_reading (w : World) :
  file (snd (UserSettings.now_reading w)) = file w.
Proof. reflexivity. Qed.

Lemma writes_now_reading (w : World) :
  writes (snd (UserSettings.now_reading w)) = writes w.
Proof. reflexivity. Qed.

Lemma ticks_now_reading (w : World) :
  ticks (snd (UserSettings.now_reading w)) = S (ticks w).
Proof. reflexivity. Qed.

Lemma fst_now_reading (w : World) :
  fst (UserSettings.now_reading w) = ticks w.
Proof. reflexivity. Qed.

Lemma file_save (writable : nat -> bool) (w : World) :
  file (snd (UserSettings._save_settings writable w))
  = if writable (writes w) then Some (settings w) else file w.
Proof. reflexivity. Qed.

Lemma writes_save (writable : nat -> bool) (w : World) :
  writes (snd (UserSettings._save_settings writable w)) = S (writes w).
Proof. reflexivity. Qed.

Ltac run_file_step :=
  first
    [ run_step
    | rewrite file_modify | rewrite writes_modify
    | rewrite file_now | rewrite writes_now
    | rewrite file_now_reading | rewrite writes_now_reading
    | rewrite ticks_now_reading | rewrite fst_now_reading
    | rewrite file_save | rewrite writes_save ].

Ltac run_w := repeat (run_file_step; cbn beta iota delta [fst snd]).

Ltac unfold_methods :=
  unfold UserSettings.set_user_prompt, UserSettings.set_user_keywords,
    UserSettings.set_user_hours, UserSettings.clear_user_settings,
    UserSettings.create_project, UserSettings.update_project_channels,
    UserSettings.update_project_keywords, UserSettings.delete_project,
    UserSettings.toggle_project_status, UserSettings.create_issue,
    UserSettings.update_issue_status, UserSettings.add_related_message,
    UserSettings.get_issue_statistics.

Section Persistence.
Variable clock : nat -> string.
Variable updated_since : nat -> string -> bool.


(** What a call returns and what it leaves in memory do not depend on the
    settings file. *)
Lemma run_call_memory (writable1 writable2 : nat -> bool) (c : Call)
  (w1 w2 : World) :
  same_memory w1 w2 ->
  fst (run_call clock writable1 updated_since c w1)
  = fst (run_call clock writable2 updated_since c w2)
  /\ same_memory (snd (run_call clock writable1 updated_since c w1))
                 (snd (run_call clock writable2 updated_since c w2)).
Proof.
  intros [Hs Ht]. unfold same_memory.
  destruct c; cbn [run_call]; unfold_methods; run_w; rewrite ?Hs, ?Ht;
    try (now repeat split).
  - destruct (settings w2 !! user_id); run_w; rewrite ?Hs, ?Ht;
      now repeat split.
  - destruct (UserSettings.stored_project (settings w2) user_id project_name);
      run_w; rewrite ?Hs, ?Ht; now repeat split.
  - destruct (UserSettings.stored_project (settings w2) user_id project_name);
      run_w; rewrite ?Hs, ?Ht; now repeat split.
  - destruct (UserSettings.stored_project (settings w2) user_id project_name);
      run_w; rewrite ?Hs, ?Ht; now repeat split.
  - destruct (UserSettings.stored_project (settings w2) user_id project_name);
      run_w; rewrite ?Hs, ?Ht; now repeat split.
  - destruct (UserSettings.stored_issue (settings w2) user_id issue_id);
      run_w; rewrite ?Hs, ?Ht; now repeat split.
  - destruct (UserSettings.stored_issue (settings w2) user_id issue_id);
      run_w; rewrite ?Hs, ?Ht; now repeat split.
Qed.


(** X13.  Failing writes of the settings file are not seen by the callers:
    two runs of the same calls from the same settings and clock return the
    same values and end with the same settings, whatever writes succeed in
    each and whatever the file held. *)
Theorem write_failures_unseen (writable1 writable2 : nat -> bool)
  (calls : list Call) (w1 w2 : World) :
  same_memory w1 w2 ->
  fst (run_calls clock writable1 updated_since calls w1)
  = fst (run_calls clock writable2 updated_since calls w2)
  /\ same_memory (snd (run_calls clock writable1 updated_since calls w1))
                 (snd (run_calls clock writable2 updated_since calls w2)).
Proof.
  revert w1 w2. induction calls as [|c calls IH]; intros w1 w2 Hsame.
  - cbn. now split.
  - rewrite !run_calls_cons. cbn [fst snd].
    destruct (run_call_memory writable1 writable2 c w1 w2 Hsame)
      as [Hvalue Hnext].
    destruct (IH _ _ Hnext) as [Hvalues Hend].
    split; [now rewrite Hvalue, Hvalues | exact Hend].
Qed.

End Persistence.

Lemma write_failures_unseen_witness :
  same_memory pump_world pump_world_unsaved
  /\ fst (run_calls clock0 always_writable all_recent pump_calls pump_world)
     = fst (run_calls clock0 never_writable all_recent pump_calls
              pump_world_unsaved).
Proof.
  assert (Hsame : same_memory pump_world pump_world_unsaved)
    by (split; reflexivity).
  split; [exact Hsame |].
  exact (proj1 (write_failures_unseen clock0 all_recent
                  always_writable never_writable pump_calls
                  pump_world pump_world_unsaved Hsame)).
Defined.

(** ** Statistics of any issues *)

Section Statistics.
Variable updated_since : nat -> string -> bool.
Variable reading : nat.

Lemma count_issues_raise (issues : list Issue.t) (e : exn) :
  fold_left (UserSettings.count_issue updated_since reading) issues (Raise e)
  = Raise e.
Proof. induction issues as [|i issues IH]; [reflexivity | exact IH]. Qed.

Lemma count_issues_by_priority (issues : list Issue.t)
  (acc : result Stats.t) :
  (exists issue : Issue.t,
     In issue issues /\ Issue.status issue = "by_priority") ->
  fold_left (UserSettings.count_issue updated_since reading) issues acc
  = Raise TypeError.
Proof.
  revert acc. induction issues as [|i issues IH]; intros acc (issue & Hin & Hs).
  - destruct Hin.
  - cbn [fold_left]. destruct Hin as [-> | Hin]; [| apply IH; eauto].
    assert (Hstep : UserSettings.count_issue updated_since reading acc issue
                    = Raise TypeError).
    { unfold UserSettings.count_issue. destruct acc as [st | []];
        [| reflexivity].
      rewrite Hs. now destruct st. }
    rewrite Hstep. apply count_issues_raise.
Qed.

(** The step of the loop, as counts. *)
Lemma count_issue_counts (st : Stats.t) (issue : Issue.t) :
  Issue.status issue <> "by_priority" ->
  let n (b : bool) : nat := if b then 1 else 0 in
  let s := Issue.status issue in
  let p := Issue.priority issue in
  UserSettings.count_issue updated_since reading (Ok st) issue
  = Ok (Stats.Make
          (Stats.total st + n (String.eqb s "total"))
          (Stats.open st + n (String.eqb s "open"))
          (Stats.investigating st + n (String.eqb s "investigating"))
          (Stats.resolved st + n (String.eqb s "resolved"))
          (Stats.closed st + n (String.eqb s "closed"))
          (Stats.MakePriorities
             (Stats.low (Stats.by_priority st) + n (String.eqb p "low"))
             (Stats.medium (Stats.by_priority st)
              + n (String.eqb p "medium"))
             (Stats.high (Stats.by_priority st) + n (String.eqb p "high"))
             (Stats.critical (Stats.by_priority st)
              + n (String.eqb p "critical")))
          (Stats.recent_activity st
           + n (String.eqb s "recent_activity")
           + n (updated_since reading (Issue.updated_at issue)))).
Proof.
  intros Hs n s p. subst s p.
  destruct st as [t o i r c [l m h k] a].
  unfold UserSettings.count_issue, UserSettings.count_status,
    UserSettings.count_priority.
  cbn [Stats.total Stats.open Stats.investigating Stats.resolved
         Stats.closed Stats.by_priority Stats.recent_activity Stats.low
         Stats.medium Stats.high Stats.critical].
  destruct (String.eqb_spec (Issue.status issue) "by_priority") as [E | _];
    [contradiction |].
  assert (Hstatus :
            forall a' : nat,
              (if String.eqb (Issue.status issue) "total"
               then Ok (Stats.Make (S t) o i r c
                          (Stats.MakePriorities l m h k) a')
               else if String.eqb (Issue.status issue) "open"
               then Ok (Stats.Make t (S o) i r c
                          (Stats.MakePriorities l m h k) a')
               else if String.eqb (Issue.status issue) "investigating"
               then Ok (Stats.Make t o (S i) r c
                          (Stats.MakePriorities l m h k) a')
               else if String.eqb (Issue.status issue) "resolved"
               then Ok (Stats.Make t o i (S r) c
                          (Stats.MakePriorities l m h k) a')
               else if String.eqb (Issue.status issue) "closed"
               then Ok (Stats.Make t o i r (S c)
                          (Stats.MakePriorities l m h k) a')
               else if String.eqb (Issue.status issue) "recent_activity"
               then Ok (Stats.Make t o i r c
                          (Stats.MakePriorities l m h k) (S a'))
               else Ok (Stats.Make t o i r c
                          (Stats.MakePriorities l m h k) a'))
              = Ok (Stats.Make
                      (t + n (String.eqb (Issue.status issue) "total"))
                      (o + n (String.eqb (Issue.status issue) "open"))
                      (i + n (String.eqb (Issue.status issue)
                                "investigating"))
                      (r + n (String.eqb (Issue.status issue) "resolved"))
                      (c + n (String.eqb (Issue.status issue) "closed"))
                      (Stats.MakePriorities l m h k)
                      (a' + n (String.eqb (Issue.status issue)
                                 "recent_activity")))).
  { intros a'. subst n.
    destruct (String.eqb_spec (Issue.status issue) "total") as [-> | _];
      [cbn; do 2 f_equal; lia |].
    destruct (String.eqb_spec (Issue.status issue) "open") as [-> | _];
      [cbn; do 2 f_equal; lia |].
    destruct (String.eqb_spec (Issue.status issue) "investigating")
      as [-> | _]; [cbn; do 2 f_equal; lia |].
    destruct (String.eqb_spec (Issue.status issue) "resolved") as [-> | _];
      [cbn; do 2 f_equal; lia |].
    destruct (String.eqb_spec (Issue.status issue) "closed") as [-> | _];
      [cbn; do 2 f_equal; lia |].
    destruct (String.eqb_spec (Issue.status issue) "recent_activity")
      as [_ | _]; cbn; do 2 f_equal; lia. }
  rewrite Hstatus.
  assert (Hpriority :
            (if String.eqb (Issue.priority issue) "low"
             then Stats.MakePriorities (S l) m h k
             else if String.eqb (Issue.priority issue) "medium"
             then Stats.MakePriorities l (S m) h k
             else if String.eqb (Issue.priority issue) "high"
             then Stats.MakePriorities l m (S h) k
             else if String.eqb (Issue.priority issue) "critical"
             then Stats.MakePriorities l m h (S k)
             else Stats.MakePriorities l m h k)
            = Stats.MakePriorities
                (l + n (String.eqb (Issue.priority issue) "low"))
                (m + n (String.eqb (Issue.priority issue) "medium"))
                (h + n (String.eqb (Issue.priority issue) "high"))
                (k + n (String.eqb (Issue.priority issue) "critical"))).
  { subst n.
    destruct (String.eqb_spec (Issue.priority issue) "low") as [-> | _];
      [cbn; f_equal; lia |].
    destruct (String.eqb_spec (Issue.priority issue) "medium") as [-> | _];
      [cbn; f_equal; lia |].
    destruct (String.eqb_spec (Issue.priority issue) "high") as [-> | _];
      [cbn; f_equal; lia |].
    destruct (String.eqb_spec (Issue.priority issue) "critical")
      as [_ | _]; cbn; f_equal; lia. }
  rewrite Hpriority.
  destruct (updated_since reading (Issue.updated_at issue)); subst n;
    cbn; do 2 f_equal; lia.
Qed.

End Statistics.

Lemma length_filter_cons {A : Type} (p : A -> bool) (x : A) (l : list A) :
  length (List.filter p (x :: l))
  = ((if p x then 1 else 0) + length (List.filter p l))%nat.
Proof. cbn [List.filter]. now destruct (p x). Qed.

Lemma count_issues_counts (updated_since : nat -> string -> bool)
  (reading : nat) (issues : list Issue.t) (st : Stats.t) :
  Forall (fun i => Issue.status i <> "by_priority") issues ->
  fold_left (UserSettings.count_issue updated_since reading) issues (Ok st)
  = Ok (Stats.Make
          (Stats.total st + count_with_status "total" issues)
          (Stats.open st + count_with_status "open" issues)
          (Stats.investigating st + count_with_status "investigating" issues)
          (Stats.resolved st + count_with_status "resolved" issues)
          (Stats.closed st + count_with_status "closed" issues)
          (Stats.MakePriorities
             (Stats.low (Stats.by_priority st)
              + count_with_priority "low" issues)
             (Stats.medium (Stats.by_priority st)
              + count_with_priority "medium" issues)
             (Stats.high (Stats.by_priority st)
              + count_with_priority "high" issues)
             (Stats.critical (Stats.by_priority st)
              + count_with_priority "critical" issues))
          (Stats.recent_activity st
           + count_with_status "recent_activity" issues
           + length (List.filter
                       (fun i => updated_since reading (Issue.updated_at i))
                       issues))).
Proof.
  revert st. induction issues as [|i issues IH]; intros st Hall.
  - destruct st as [t o n r c [l m h k] a]. cbn.
    do 2 f_equal; try lia. f_equal; lia.
  - apply List.Forall_cons_iff in Hall. destruct Hall as [Hi Hrest].
    cbn [fold_left]. rewrite count_issue_counts by exact Hi.
    rewrite IH by exact Hrest.
    unfold count_with_status, count_with_priority.
    rewrite !length_filter_cons.
    cbn [Stats.total Stats.open Stats.investigating
           Stats.resolved Stats.closed Stats.by_priority
           Stats.recent_activity Stats.low Stats.medium Stats.high
           Stats.critical].
    do 2 f_equal; try lia. f_equal; lia.
Qed.

(** X14.  A stored issue whose status is "by_priority", which
    [update_issue_status] accepts like any other string, makes
    [get_issue_statistics] raise a [TypeError] for that user: the status
    is a key of the statistics, and the value under it is no number. *)
Theorem get_issue_statistics_type_error
  (updated_since : nat -> string -> bool) (user_id : string) (w : World) :
  (exists issue : Issue.t,
     In issue
        (Dict.values (UserSettings.get_user_issues (settings w) user_id None))
     /\ Issue.status issue = "by_priority") ->
  fst (UserSettings.get_issue_statistics updated_since user_id w)
  = Raise TypeError.
Proof.
  intros Hbad. unfold UserSettings.get_issue_statistics. run_m.
  now apply count_issues_by_priority.
Qed.

Lemma get_issue_statistics_type_error_witness :
  fst (UserSettings.update_issue_status clock0 always_writable
         "U1" pump_id "by_priority" None pump_world) = true
  /\ fst (UserSettings.get_issue_statistics all_recent "U1" odd_world)
     = Raise TypeError.
Proof.
  split; [vm_compute; reflexivity |].
  apply (get_issue_statistics_type_error all_recent "U1" odd_world).
  eexists. split; [vm_compute; left; reflexivity | reflexivity].
Defined.

(** X15.  When no stored issue of the user has the status "by_priority",
    [get_issue_statistics] returns counts: the four status counts and the
    four priority counts are the numbers of the user's issues with that
    status and that priority, so that an issue with another status or
    priority is in none of them; [total] is the number of the issues plus
    those whose status is "total"; [recent_activity] is the number of the
    issues updated within the last 24 hours plus those whose status is
    "recent_activity". *)
Theorem get_issue_statistics_counts
  (updated_since : nat -> string -> bool) (user_id : string) (w : World) :
  let issues :=
    Dict.values (UserSettings.get_user_issues (settings w) user_id None) in
  Forall (fun i => Issue.status i <> "by_priority") issues ->
  fst (UserSettings.get_issue_statistics updated_since user_id w)
  = Ok (Stats.Make
          (length issues + count_with_status "total" issues)
          (count_with_status "open" issues)
          (count_with_status "investigating" issues)
          (count_with_status "resolved" issues)
          (count_with_status "closed" issues)
          (Stats.MakePriorities
             (count_with_priority "low" issues)
             (count_with_priority "medium" issues)
             (count_with_priority "high" issues)
             (count_with_priority "critical" issues))
          (count_with_status "recent_activity" issues
           + length (List.filter
                       (fun i => updated_since (ticks w) (Issue.updated_at i))
                       issues))).
Proof.
  intros issues Hall. unfold UserSettings.get_issue_statistics. run_m.
  fold issues. rewrite count_issues_counts by exact Hall.
  cbn [Stats.total Stats.open Stats.investigating Stats.resolved
         Stats.closed Stats.by_priority Stats.recent_activity Stats.low
         Stats.medium Stats.high Stats.critical].
  assert (Hlength :
            length issues
            = length (UserSettings.get_user_issues (settings w) user_id None))
    by apply length_map.
  now rewrite Hlength.
Qed.

Lemma get_issue_statistics_counts_witness :
  fst (UserSettings.get_issue_statistics all_recent "U1" pump_world)
  = Ok (Stats.Make 1 1 0 0 0 (Stats.MakePriorities 0 0 1 0) 1).
Proof.
  rewrite (get_issue_statistics_counts all_recent "U1" pump_world).
  - vm_compute. reflexivity.
  - vm_compute. apply List.Forall_cons; [discriminate | apply List.Forall_nil].
Defined.

(** ** Tags and priority *)

Lemma lower_append (a b : string) :
  PyStr.lower (a +:+ b) = PyStr.lower a +:+ PyStr.lower b.
Proof.
  induction a as [|c a IH]; [reflexivity |].
  rewrite append_cons. cbn [PyStr.lower]. now rewrite IH, append_cons.
Qed.

Lemma occurs_within (p s before after : string) :
  occurs p s -> occurs p (before +:+ s +:+ after).
Proof.
  intros (a & b & ->). exists (before +:+ a), (b +:+ after).
  now rewrite !append_assoc.
Qed.

Lemma any_in_within (ws : list string) (s before after : string) :
  PyStr.any_in ws s = true ->
  PyStr.any_in ws (before +:+ s +:+ after) = true.
Proof.
  rewrite !any_in_spec. intros (w & Hin & Hocc). exists w.
  split; [exact Hin | now apply occurs_within].
Qed.

Lemma detect_in_iff (text tag : string) :
  In tag (detect_issue_keywords text) <->
  exists patterns : list string,
    In (tag, patterns) issue_patterns
    /\ PyStr.any_in patterns (PyStr.lower text) = true.
Proof.
  unfold detect_issue_keywords. rewrite in_map_iff. split.
  - intros [[tag' patterns] [Htag Hin]]. simpl in Htag. subst tag'.
    apply filter_In in Hin. destruct Hin as [Hin Hany]. now exists patterns.
  - intros [patterns [Hin Hany]]. exists (tag, patterns).
    split; [reflexivity |]. now apply filter_In.
Qed.

Lemma critical_patterns (patterns : list string) :
  In ("critical", patterns) issue_patterns <-> patterns = critical_words.
Proof.
  split.
  - intros Hin. unfold issue_patterns in Hin. cbn [In] in Hin.
    repeat (destruct Hin as [Hin | Hin];
            [injection Hin; intros; try discriminate; now subst |]).
    destruct Hin.
  - intros ->. unfold issue_patterns, critical_words. cbn [In]. tauto.
Qed.

Lemma priority_critical (text : string) :
  extract_issue_priority text = "critical" <->
  PyStr.any_in critical_words (PyStr.lower text) = true.
Proof.
  rewrite priority_cases. cbv zeta.
  destruct (PyStr.any_in critical_words (PyStr.lower text));
    [now split |].
  destruct (PyStr.any_in high_words (PyStr.lower text));
    [split; discriminate |].
  destruct (PyStr.any_in low_words (PyStr.lower text)); split; discriminate.
Qed.

Lemma priority_known (text : string) :
  In (extract_issue_priority text) priorities.
Proof.
  rewrite priority_cases. cbv zeta. unfold priorities.
  destruct (PyStr.any_in critical_words (PyStr.lower text));
    [cbn; tauto |].
  destruct (PyStr.any_in high_words (PyStr.lower text)); [cbn; tauto |].
  destruct (PyStr.any_in low_words (PyStr.lower text)); cbn; tauto.
Qed.

(** X16.  The priority of a text is "critical" exactly when the classifier
    gives it the tag "critical": the two use the same words.  So every
    message of critical priority is an issue candidate. *)
Theorem critical_priority_is_tagged (text : string) :
  (extract_issue_priority text = "critical" <->
   In "critical" (detect_issue_keywords text))
  /\ (forall m : Message.t,
        extract_issue_priority (get (Message.text m) "") = "critical" ->
        has_issue_keywords m = true).
Proof.
  assert (Hiff : forall t : string,
            extract_issue_priority t = "critical" <->
            In "critical" (detect_issue_keywords t)).
  { intros t. rewrite priority_critical, detect_in_iff. split.
    - intros Hany. exists critical_words. split; [| exact Hany].
      now apply critical_patterns.
    - intros (patterns & Hin & Hany). apply critical_patterns in Hin.
      now subst. }
  split; [apply Hiff |].
  intros m Hcritical. apply Hiff in Hcritical. unfold has_issue_keywords.
  destruct (detect_issue_keywords (get (Message.text m) ""));
    [destruct Hcritical | reflexivity].
Qed.

(** X17.  Text around a text takes no tag away: every tag of a text is a
    tag of any text that contains it, and a text that contains a text of
    critical priority has critical priority. *)
Theorem tags_grow_with_text (text before after : string) :
  incl (detect_issue_keywords text)
       (detect_issue_keywords (before +:+ text +:+ after))
  /\ (extract_issue_priority text = "critical" ->
      extract_issue_priority (before +:+ text +:+ after) = "critical").
Proof.
  assert (Hlower : PyStr.lower (before +:+ text +:+ after)
                   = PyStr.lower before +:+ PyStr.lower text
                     +:+ PyStr.lower after)
    by (now rewrite !lower_append).
  split.
  - intros tag. rewrite !detect_in_iff. intros (patterns & Hin & Hany).
    exists patterns. split; [exact Hin |]. rewrite Hlower.
    now apply any_in_within.
  - rewrite !priority_critical, Hlower. apply any_in_within.
Qed.

Lemma map_filter_sublist {A B : Type} (f : A -> B) (p : A -> bool)
  (l : list A) :
  sublist (map f (List.filter p l)) (map f l).
Proof.
  induction l as [|x l IH]; cbn [List.filter map]; [constructor |].
  destruct (p x); cbn [map]; now constructor.
Qed.

(** X18.  The classifier returns each tag at most once and in the order of
    its table: bug, failure, problem, malfunction, performance, critical,
    regression, hardware, firmware. *)
Theorem detect_issue_keywords_order (text : string) :
  sublist (detect_issue_keywords text)
          ["bug"; "failure"; "problem"; "malfunction"; "performance";
           "critical"; "regression"; "hardware"; "firmware"]
  /\ NoDup (detect_issue_keywords text)
  /\ (length (detect_issue_keywords text) <= 9)%nat.
Proof.
  assert (Hsub : sublist (detect_issue_keywords text)
                   (map fst issue_patterns))
    by apply map_filter_sublist.
  split; [exact Hsub |]. split.
  - eapply sublist_NoDup; [| exact Hsub].
    cbn. repeat (constructor; [cbn; rewrite ?list_elem_of_In; cbn;
                               intuition discriminate |]).
    constructor.
  - apply sublist_length in Hsub. exact Hsub.
Qed.

(** ** Tokens, and the shape of a title *)

Lemma token_of_run (cur : list ascii) :
  cur <> [] ->
  Forall (fun c => PyStr.is_space c = false) cur ->
  token (string_of_list_ascii (rev cur)).
Proof.
  intros Hne Hall. split.
  - intros Hempty. apply (f_equal list_ascii_of_string) in Hempty.
    rewrite list_ascii_of_string_of_list_ascii in Hempty. cbn in Hempty.
    apply (f_equal (@rev ascii)) in Hempty. rewrite rev_involutive in Hempty.
    now apply Hne.
  - rewrite list_ascii_of_string_of_list_ascii.
    apply List.Forall_forall. intros c Hc. apply in_rev in Hc.
    now apply (proj1 (List.Forall_forall _ _) Hall).
Qed.

Lemma split_aux_tokens (s : string) :
  forall cur : list ascii,
    Forall (fun c => PyStr.is_space c = false) cur ->
    Forall token (PyStr.split_aux cur s).
Proof.
  induction s as [|c s IH]; intros cur Hcur; cbn [PyStr.split_aux].
  - destruct cur as [|x cur]; [constructor |].
    constructor; [| constructor]. now apply token_of_run.
  - destruct (PyStr.is_space c) eqn:Hc.
    + destruct cur as [|x cur]; [now apply IH |].
      constructor; [now apply token_of_run | now apply IH].
    + apply IH. now constructor.
Qed.

Lemma split_aux_token (w s : string) :
  forall cur : list ascii,
    Forall (fun c => PyStr.is_space c = false) (list_ascii_of_string w) ->
    PyStr.split_aux cur (w +:+ s)
    = PyStr.split_aux (rev (list_ascii_of_string w) ++ cur) s.
Proof.
  induction w as [|c w IH]; intros cur Hw; [reflexivity |].
  rewrite append_cons. cbn [PyStr.split_aux list_ascii_of_string rev].
  apply List.Forall_cons_iff in Hw. destruct Hw as [Hc Hw].
  rewrite Hc, IH by exact Hw. now rewrite <- app_assoc.
Qed.

Lemma split_token_then (w rest : string) :
  token w ->
  PyStr.split_aux [] (w +:+ String " " rest) = w :: PyStr.split_aux [] rest.
Proof.
  intros [Hne Hall]. rewrite split_aux_token by exact Hall.
  rewrite app_nil_r. cbn [PyStr.split_aux].
  change (PyStr.is_space " ") with true. cbv iota.
  destruct (rev (list_ascii_of_string w)) as [|x l] eqn:Hrev.
  - exfalso. apply Hne. apply (f_equal (@rev ascii)) in Hrev.
    rewrite rev_involutive in Hrev. cbn in Hrev.
    rewrite <- (string_of_list_ascii_of_string w). now rewrite Hrev.
  - rewrite <- Hrev, rev_involutive. now rewrite string_of_list_ascii_of_string.
Qed.

Lemma split_join (ws : list string) :
  Forall token ws -> PyStr.split (PyStr.join " " ws) = ws.
Proof.
  unfold PyStr.split, PyStr.join.
  induction ws as [|w ws IH]; intros Hall; [reflexivity |].
  apply List.Forall_cons_iff in Hall. destruct Hall as [Hw Hws].
  destruct ws as [|w' ws].
  - cbn [String.concat]. rewrite <- (append_empty_r w) at 1.
    destruct Hw as [Hne Hall]. rewrite split_aux_token by exact Hall.
    rewrite app_nil_r. cbn [PyStr.split_aux].
    destruct (rev (list_ascii_of_string w)) as [|x l] eqn:Hrev.
    + exfalso. apply Hne. apply (f_equal (@rev ascii)) in Hrev.
      rewrite rev_involutive in Hrev. cbn in Hrev.
      rewrite <- (string_of_list_ascii_of_string w). now rewrite Hrev.
    + rewrite <- Hrev, rev_involutive.
      now rewrite string_of_list_ascii_of_string.
  - change (String.concat " " (w :: w' :: ws))
      with (w +:+ String " " (String.concat " " (w' :: ws))).
    rewrite split_token_then by exact Hw. now rewrite IH.
Qed.

Lemma token_head (w : string) :
  token w -> exists (c : ascii) (r : string),
    w = String c r /\ PyStr.is_space c = false.
Proof.
  intros [Hne Hall]. destruct w as [|c r]; [contradiction |].
  exists c, r. split; [reflexivity |].
  cbn in Hall. now apply List.Forall_cons_iff in Hall.
Qed.

Lemma token_last (w : string) :
  token w -> exists (a : string) (c : ascii),
    w = a +:+ String c "" /\ PyStr.is_space c = false.
Proof.
  intros [Hne Hall]. induction w as [|x w IH]; [contradiction |].
  cbn in Hall. apply List.Forall_cons_iff in Hall. destruct Hall as [Hx Hw].
  destruct w as [|y w].
  - now exists "", x.
  - destruct IH as (a & c & Ha & Hc); [discriminate | exact Hw |].
    exists (String x a), c. rewrite append_cons, <- Ha. now split.
Qed.

Lemma join_tokens_ends (ws : list string) :
  Forall token ws -> ws <> [] ->
  (exists (c : ascii) (r : string),
     PyStr.join " " ws = String c r /\ PyStr.is_space c = false)
  /\ (exists (a : string) (c : ascii),
        PyStr.join " " ws = a +:+ String c "" /\ PyStr.is_space c = false).
Proof.
  unfold PyStr.join. induction ws as [|w ws IH]; intros Hall Hne;
    [contradiction |].
  apply List.Forall_cons_iff in Hall. destruct Hall as [Hw Hws].
  destruct ws as [|w' ws].
  - cbn [String.concat]. split; [now apply token_head | now apply token_last].
  - change (String.concat " " (w :: w' :: ws))
      with (w +:+ String " " (String.concat " " (w' :: ws))).
    destruct (IH Hws) as [_ (a & c & Ha & Hc)]; [discriminate |].
    split.
    + destruct (token_head w Hw) as (x & r & -> & Hx).
      rewrite append_cons. eauto.
    + exists (w +:+ String " " a), c. rewrite Ha.
      split; [| exact Hc].
      now rewrite append_assoc, append_cons.
Qed.

Lemma lstrip_head (s : string) (c : ascii) (r : string) :
  PyStr.lstrip s = String c r -> PyStr.is_space c = false.
Proof.
  induction s as [|x s IH]; cbn [PyStr.lstrip]; [discriminate |].
  destruct (PyStr.is_space x) eqn:Hx; [exact IH |].
  intros Heq. injection Heq as -> _. exact Hx.
Qed.

Lemma rstrip_head (s : string) (c : ascii) (r : string) :
  PyStr.rstrip s = String c r -> exists r0 : string, s = String c r0.
Proof.
  destruct s as [|x s]; cbn [PyStr.rstrip]; [discriminate |].
  destruct (PyStr.rstrip s); [destruct (PyStr.is_space x) |];
    try discriminate; intros Heq; injection Heq as -> _; eauto.
Qed.

Lemma rstrip_last (s a : string) (c : ascii) :
  PyStr.rstrip s = a +:+ String c "" -> PyStr.is_space c = false.
Proof.
  revert a. induction s as [|x s IH]; intros a; cbn [PyStr.rstrip].
  - destruct a; discriminate.
  - destruct (PyStr.rstrip s) as [|y t] eqn:Hs.
    + destruct (PyStr.is_space x) eqn:Hx; [destruct a; discriminate |].
      destruct a as [|z a]; [intros Heq; injection Heq as ->; exact Hx |].
      rewrite append_cons. intros Heq. injection Heq as _ Heq.
      destruct a; discriminate.
    + destruct a as [|z a]; [discriminate |].
      rewrite append_cons. intros Heq. injection Heq as _ Heq.
      now apply (IH a).
Qed.

Lemma lstrip_keeps (c : ascii) (r : string) :
  PyStr.is_space c = false -> PyStr.lstrip (String c r) = String c r.
Proof. intros Hc. cbn [PyStr.lstrip]. now rewrite Hc. Qed.

Lemma rstrip_keeps (a : string) (c : ascii) :
  PyStr.is_space c = false ->
  PyStr.rstrip (a +:+ String c "") = a +:+ String c "".
Proof.
  intros Hc. induction a as [|x a IH].
  - rewrite append_nil. cbn [PyStr.rstrip]. now rewrite Hc.
  - rewrite append_cons. cbn [PyStr.rstrip]. rewrite IH.
    destruct a; reflexivity.
Qed.

Lemma strip_dots (a : string) :
  exists p : string, PyStr.strip (a +:+ "...") = p +:+ "...".
Proof.
  unfold PyStr.strip.
  assert (Hleft : exists p : string,
            PyStr.lstrip (a +:+ "...") = p +:+ "...").
  { induction a as [|x a IH]; [now exists "" |].
    rewrite append_cons. cbn [PyStr.lstrip].
    destruct (PyStr.is_space x); [exact IH |].
    exists (String x a). now rewrite append_cons. }
  destruct Hleft as [p ->]. exists p.
  replace (p +:+ "...") with ((p +:+ "..") +:+ String "." "")
    by (now rewrite append_assoc).
  now apply rstrip_keeps.
Qed.

Lemma kept_words_tokens (text : string) : Forall token (kept_words text).
Proof.
  unfold kept_words. apply List.Forall_forall. intros w Hw.
  apply filter_In in Hw. destruct Hw as [Hw _].
  revert w Hw. apply List.Forall_forall.
  apply split_aux_tokens. constructor.
Qed.

Lemma firstn_tokens (n : nat) (ws : list string) :
  Forall token ws -> Forall token (firstn n ws).
Proof.
  revert ws. induction n as [|n IH]; intros ws Hall; [constructor |].
  destruct ws as [|w ws]; [constructor |]. cbn [firstn].
  apply List.Forall_cons_iff in Hall. destruct Hall as [Hw Hws].
  constructor; [exact Hw | now apply IH].
Qed.

Lemma strip_join_tokens (ws : list string) :
  Forall token ws -> PyStr.strip (PyStr.join " " ws) = PyStr.join " " ws.
Proof.
  intros Hall. destruct ws as [|w ws]; [reflexivity |].
  destruct (join_tokens_ends (w :: ws) Hall) as [(c & r & Hhead & Hc) Hlast];
    [discriminate |].
  unfold PyStr.strip. rewrite Hhead, lstrip_keeps by exact Hc.
  rewrite <- Hhead. destruct Hlast as (a & d & -> & Hd).
  now apply rstrip_keeps.
Qed.

(** X19.  A title neither starts nor ends with whitespace.  When the first
    twelve kept words, joined by single spaces, are longer than
    [max_length], the title ends with the marker "..."; otherwise the title
    is exactly those words joined, and splitting it at whitespace gives
    them back.  The kept words are tokens of more than two characters whose
    lower-case form is no stop word. *)
Theorem generate_issue_title_shape (text : string) (max_length : Z) :
  let joined := PyStr.join " " (firstn 12 (kept_words text)) in
  let title := generate_issue_title text max_length in
  (forall (c : ascii) (r : string),
     title = String c r -> PyStr.is_space c = false)
  /\ (forall (a : string) (c : ascii),
        title = a +:+ String c "" -> PyStr.is_space c = false)
  /\ ((max_length < Z.of_nat (String.length joined))%Z ->
      exists p : string, title = p +:+ "...")
  /\ ((Z.of_nat (String.length joined) <= max_length)%Z ->
      title = joined /\ PyStr.split title = firstn 12 (kept_words text))
  /\ Forall (fun w => token w
                      /\ (2 < String.length w)%nat
                      /\ ~ In (PyStr.lower w) skip_words)
            (kept_words text).
Proof.
  intros joined title.
  assert (Htitle :
            title
            = PyStr.strip
                (if (max_length <? Z.of_nat (String.length joined))%Z
                 then PyStr.slice_to joined (max_length - 3) +:+ "..."
                 else joined)) by reflexivity.
  assert (Htokens : Forall token (firstn 12 (kept_words text)))
    by (apply firstn_tokens, kept_words_tokens).
  split; [| split; [| split; [| split]]].
  - intros c r Hc. rewrite Htitle in Hc. unfold PyStr.strip in Hc.
    apply rstrip_head in Hc. destruct Hc as [r0 Hc].
    now apply lstrip_head in Hc.
  - intros a c Hc. rewrite Htitle in Hc. unfold PyStr.strip in Hc.
    now apply rstrip_last in Hc.
  - intros Hlong. rewrite Htitle.
    apply Z.ltb_lt in Hlong. rewrite Hlong. apply strip_dots.
  - intros Hshort. rewrite Htitle.
    apply Z.ltb_ge in Hshort. rewrite Hshort.
    unfold joined. rewrite strip_join_tokens by exact Htokens.
    split; [reflexivity | now apply split_join].
  - apply List.Forall_forall. intros w Hw.
    split; [now apply (proj1 (List.Forall_forall _ _)
                         (kept_words_tokens text)) |].
    unfold kept_words in Hw. apply filter_In in Hw.
    destruct Hw as [_ Hkeep]. apply andb_true_iff in Hkeep.
    destruct Hkeep as [Hstop Hlen]. split.
    + now apply Nat.ltb_lt in Hlen.
    + intros Hin. apply negb_true_iff in Hstop.
      assert (Hex : existsb (String.eqb (PyStr.lower w)) skip_words = true).
      { apply existsb_exists. exists (PyStr.lower w).
        split; [exact Hin | apply String.eqb_refl]. }
      congruence.
Qed.

(** ** The fingerprint joins its fields *)




(** ** From the detector to the store *)

(** X21.  Every candidate of the detector has the tags of the classifier
    as [tags] and as [types], at least one tag, one of the four
    priorities, a title of at most 80 characters and no status.  An issue
    created from it is stored under the fingerprint of its text, channel
    and timestamp, with the status "open", these tags, this priority and
    this title, without description. *)
Theorem detected_issue_tracked (clock : nat -> string)
  (writable : nat -> bool) (messages : list Message.t)
  (detecting_user : string) (w0 : World) (candidate : IssueData.t) :
  In candidate
     (fst (App.detect_and_track_issues messages detecting_user w0)) ->
  exists (m : Message.t) (tags : list string) (priority title : string),
    In m messages
    /\ tags = detect_issue_keywords (get (Message.text m) "")
    /\ tags <> []
    /\ priority = extract_issue_priority (get (Message.text m) "")
    /\ In priority priorities
    /\ title = generate_issue_title (get (Message.text m) "") 80
    /\ (String.length title <= 80)%nat
    /\ IssueData.tags candidate = Some tags
    /\ IssueData.types candidate = Some tags
    /\ IssueData.status candidate = None
    /\ forall (user_id : string) (w : World),
         let r := UserSettings.create_issue clock writable
                    user_id candidate w in
         fst r = UserSettings._generate_issue_id
                   (get (Message.text m) "") (get (Message.channel m) "")
                   (get (Message.ts m) "")
         /\ exists issue : Issue.t,
              UserSettings.get_issue (settings (snd r)) user_id (fst r)
              = Some issue
              /\ Issue.status issue = "open"
              /\ Issue.tags issue = tags
              /\ Issue.priority issue = priority
              /\ Issue.title issue = title
              /\ Issue.description issue = ""
              /\ classified issue.
Proof.
  intros Hin. unfold App.detect_and_track_issues, mret, M_ret in Hin.
  cbn [fst] in Hin. rewrite detect_loop_spec in Hin. cbn [app] in Hin.
  apply in_map_iff in Hin. destruct Hin as (m & <- & Hm).
  apply filter_In in Hm. destruct Hm as [Hm Hkeywords].
  exists m, (detect_issue_keywords (get (Message.text m) "")),
    (extract_issue_priority (get (Message.text m) "")),
    (generate_issue_title (get (Message.text m) "") 80).
  split; [exact Hm |]. split; [reflexivity |]. split.
  { unfold has_issue_keywords in Hkeywords.
    destruct (detect_issue_keywords (get (Message.text m) ""));
      [discriminate | discriminate]. }
  split; [reflexivity |]. split; [apply priority_known |].
  split; [reflexivity |]. split.
  { pose proof (truncate_bound
                  (PyStr.join " "
                     (firstn 12 (kept_words (get (Message.text m) ""))))
                  80 ltac:(lia)) as Hbound.
    change (PyStr.strip _) with
      (generate_issue_title (get (Message.text m) "") 80) in Hbound.
    lia. }
  split; [reflexivity |]. split; [reflexivity |]. split; [reflexivity |].
  intros user_id w r. subst r.
  destruct (create_issue_stored clock writable user_id
              (App.issue_data_of m) w)
    as (Hid & issue & Hstored & Hstatus & _).
  split; [rewrite Hid; reflexivity |].
  unfold UserSettings.create_issue in *. revert Hstored. run_m.
  fold (issue_id_of (App.issue_data_of m)).
  destruct (user_issues_ensure user_id (settings w)) as [_ Huser].
  rewrite stored_put_same by exact Huser.
  intros _. eexists. split.
  - rewrite get_issue_stored. now apply stored_put_same.
  - cbn [Issue.status Issue.tags Issue.priority Issue.title
           Issue.description App.issue_data_of IssueData.status
           IssueData.tags IssueData.priority IssueData.title
           IssueData.description get].
    repeat split; try reflexivity.
    + cbn. tauto.
    + apply priority_known.
Qed.

Lemma detected_issue_tracked_witness :
  In (App.issue_data_of pump_message)
     (fst (App.detect_and_track_issues [pump_message] "U1"
             (UserSettings.__init__ None)))
  /\ exists issue : Issue.t,
       UserSettings.get_issue
         (settings
            (snd (UserSettings.create_issue clock0 always_writable "U1"
                    (App.issue_data_of pump_message)
                    (UserSettings.__init__ None))))
         "U1" pump_id
       = Some issue
       /\ Issue.status issue = "open"
       /\ Issue.tags issue = ["failure"]
       /\ Issue.priority issue = "medium".
Proof.
  assert (Hin : In (App.issue_data_of pump_message)
                   (fst (App.detect_and_track_issues [pump_message] "U1"
                           (UserSettings.__init__ None))))
    by (vm_compute; left; reflexivity).
  split; [exact Hin |].
  destruct (detected_issue_tracked clock0 always_writable [pump_message]
              "U1" (UserSettings.__init__ None)
              (App.issue_data_of pump_message) Hin)
    as (m & tags & priority & title & Hm & Htags & _ & Hpriority & _ & _ & _
        & _ & _ & _ & Hcreated).
  destruct Hm as [<- | []].
  destruct (Hcreated "U1" (UserSettings.__init__ None))
    as (_ & issue & Hget & Hstatus & Htag & Hprio & _).
  exists issue. split; [exact Hget |]. split; [exact Hstatus |].
  split.
  - rewrite Htag, Htags. vm_compute. reflexivity.
  - rewrite Hprio, Hpriority. vm_compute. reflexivity.
Defined.

(** ** Queries that every issue matches *)

Lemma filter_all {A : Type} (p : A -> bool) (l : list A) :
  (forall x : A, p x = true) -> List.filter p l = l.
Proof.
  intros Hp. induction l as [|x l IH]; [reflexivity |].
  cbn [List.filter]. now rewrite Hp, IH.
Qed.

(** X22.  The empty query, and the query of one space, match every issue:
    [search_issues] then returns all the issues of the user, each once per
    stored record. *)
Theorem search_issues_all (s : Settings) (user_id query : string) :
  query = "" \/ query = " " ->
  Permutation (UserSettings.search_issues s user_id query)
              (Dict.values (UserSettings.get_user_issues s user_id None)).
Proof.
  intros Hquery. unfold UserSettings.search_issues.
  rewrite sort_reverse_perm. rewrite filter_all; [reflexivity |].
  intros issue. unfold UserSettings.search_match. apply contains_spec.
  destruct Hquery as [-> | ->].
  - exists "". eexists. reflexivity.
  - rewrite !lower_append.
    exists (PyStr.lower (Issue.title issue)). eexists. reflexivity.
Qed.

Lemma search_issues_all_witness :
  ("" = "" \/ "" = " ")
  /\ Permutation (UserSettings.search_issues (settings pump_world) "U1" "")
                 [pump_issue].
Proof.
  assert (Hquery : "" = "" \/ "" = " ") by (left; reflexivity).
  split; [exact Hquery |].
  exact (search_issues_all (settings pump_world) "U1" "" Hquery).
Defined.
